(** * captain_cmd packaging scripts: a shallow embedding

    The two scripts [build_with_pyinstaller.py] (PyInstaller backend) and
    [build.py] (Nuitka backend) are sequences of file-system operations
    around one external compiler run.  The file system, the console and the
    spawned processes are the state; Python exceptions and [sys.exit] are the
    outcomes of a small state-and-error monad.

    The file system is a finite map from relative paths (lists of path
    components, the current directory being the empty path) to entries.  It
    has regular files and directories only: no links and no permissions, so
    that removing an entry that exists never fails. *)

From stdpp Require Import gmap strings list fin_maps pretty.
From Stdlib Require Import ZArith Ascii.

Local Open Scope string_scope.
Local Open Scope list_scope.

(** ** Paths *)

Abbreviation path := (list string).

(** [os.path.join a b] for relative [b]. *)
Definition join (a b : path) : path := a ++ b.

(** The text of a path, as [print] and [str.endswith] see it. *)
Definition path_str (p : path) : string := String.concat "/" p.

(** [os.path.dirname], [os.path.basename]. *)
Definition dirname (p : path) : path := removelast p.
Definition basename (p : path) : path :=
  match last p with Some x => [x] | None => [] end.

(** [s.endswith(suf)]. *)
Definition endswith (s suf : string) : bool :=
  let n := String.length s in
  let m := String.length suf in
  (m <=? n)%nat && String.eqb (String.substring (n - m) m s) suf.

(** ** File system *)

Inductive entry := File (data : string) | Dir.

#[global] Instance entry_eq_dec : EqDecision entry.
Proof. solve_decision. Defined.

Abbreviation filesystem := (gmap path entry).

(** The current directory always exists. *)
Definition stat (f : filesystem) (p : path) : option entry :=
  match p with [] => Some Dir | _ => f !! p end.

Definition exists_ (f : filesystem) (p : path) : bool :=
  match stat f p with Some _ => true | None => false end.
Definition isdir (f : filesystem) (p : path) : bool :=
  match stat f p with Some Dir => true | _ => false end.
Definition isfile (f : filesystem) (p : path) : bool :=
  match stat f p with Some (File _) => true | _ => false end.

(** Every entry lives in a directory. *)
Definition wf (f : filesystem) : Prop :=
  map_Forall (fun k _ => k ≠ [] ∧ isdir f (dirname k) = true) f.

#[global] Instance wf_dec f : Decision (wf f).
Proof. unfold wf. apply _. Defined.

(** Removal of the whole tree below (and including) [p]. *)
Definition prune (p : path) (f : filesystem) : filesystem :=
  filter (fun kv => ¬ p `prefix_of` kv.1) f.

(** The tree below [src], re-rooted at [dst]. *)
Definition graft (src dst : path) (f : filesystem) : filesystem :=
  map_fold (fun k v acc =>
              if decide (src `prefix_of` k)
              then <[dst ++ drop (length src) k := v]> acc else acc) ∅ f.

(** The whole tree at [src] taken away and put at [dst], in place of
    whatever was there. *)
Definition relocate (src dst : path) (f : filesystem) : filesystem :=
  graft src dst f ∪ prune dst (prune src f).

(** ** Exceptions and the library calls the scripts make *)

Inductive oserror :=
  | FileNotFoundError | FileExistsError | NotADirectoryError
  | IsADirectoryError | SameFileError | ShutilError.

Inductive exn :=
  | ImportError (module : string)
  | CalledProcessError (returncode : Z) (cmd : list string)
  | OSError (kind : oserror) (filename : path).

Definition is_OSError (e : exn) : bool :=
  match e with OSError _ _ => true | _ => false end.
Definition is_CalledProcessError (e : exn) : bool :=
  match e with CalledProcessError _ _ => true | _ => false end.

(** [repr(s)] of a [str]: the text between quotes, with the quote, the
    backslash and the control characters escaped; double quotes are used
    when the text holds a single quote and no double quote.  Characters
    outside ASCII are taken to be printable, as those of file names are. *)
Definition hex_digit (n : nat) : string :=
  String.substring n 1 "0123456789abcdef".

Definition repr_char (quote c : ascii) : string :=
  let n := nat_of_ascii c in
  if Ascii.eqb c quote || Ascii.eqb c "092"%char
  then String "092"%char (String c "")
  else if Ascii.eqb c "009"%char then "\t"
  else if Ascii.eqb c "010"%char then "\n"
  else if Ascii.eqb c "013"%char then "\r"
  else if (n <? 32)%nat || (n =? 127)%nat
  then "\x" +:+ hex_digit (n / 16) +:+ hex_digit (n mod 16)
  else String c "".

Definition repr (s : string) : string :=
  let chars := String.list_ascii_of_string s in
  let quote :=
    if existsb (Ascii.eqb "'"%char) chars
       && negb (existsb (Ascii.eqb "034"%char) chars)
    then "034"%char else "'"%char in
  String quote (String.concat "" (map (repr_char quote) chars))
  +:+ String quote "".

(** [str(e)], as on Linux and macOS.  An [OSError] raised by a system call
    reads [[Errno n] message: 'filename']; the errors [shutil] raises itself
    carry their own text.  The scripts print the text of what
    [shutil.rmtree] and [shutil.copy2] raise and of nothing else; a negative
    exit status stands for a signal, which Python names after the host's
    table and which is given by its number here. *)
Definition exn_str (e : exn) : string :=
  match e with
  | ImportError m => "No module named " +:+ repr m
  | CalledProcessError rc cmd =>
      "Command '[" +:+ String.concat ", " (map repr cmd) +:+ "]' "
      +:+ (if (rc <? 0)%Z then "died with unknown signal " +:+ pretty (- rc)%Z
           else "returned non-zero exit status " +:+ pretty rc)
      +:+ "."
  | OSError k p =>
      match k with
      | FileNotFoundError =>
          "[Errno 2] No such file or directory: " +:+ repr (path_str p)
      | FileExistsError => "[Errno 17] File exists: " +:+ repr (path_str p)
      | NotADirectoryError => "[Errno 20] Not a directory: " +:+ repr (path_str p)
      | IsADirectoryError => "[Errno 21] Is a directory: " +:+ repr (path_str p)
      | SameFileError =>
          repr (path_str p) +:+ " and " +:+ repr (path_str p)
          +:+ " are the same file"
      | ShutilError => "Destination path '" +:+ path_str p +:+ "' already exists"
      end
  end.

(** The error of a system call that cannot get into the directory [p]: on
    the way down from the current directory, the first component that is not
    a directory is either a regular file or missing. *)
Fixpoint unreachable_from (pre rest : path) (f : filesystem) : oserror :=
  match rest with
  | [] => FileNotFoundError
  | x :: rest' =>
      match f !! (pre ++ [x]) with
      | Some Dir => unreachable_from (pre ++ [x]) rest' f
      | Some (File _) => NotADirectoryError
      | None => FileNotFoundError
      end
  end.

Definition unreachable (p : path) (f : filesystem) : oserror :=
  unreachable_from [] p f.

(** [shutil.rmtree(p)]: only a directory can be removed this way. *)
Definition rmtree (p : path) (f : filesystem) : exn + filesystem :=
  match stat f p with
  | Some Dir => inr (prune p f)
  | Some (File _) => inl (OSError NotADirectoryError p)
  | None => inl (OSError (unreachable (dirname p) f) p)
  end.

(** [shutil.rmtree(p, ignore_errors=True)]. *)
Definition rmtree_ignore_errors (p : path) (f : filesystem) : exn + filesystem :=
  match rmtree p f with inl _ => inr f | r => r end.

(** [os.remove(p)]: only a regular file can be removed this way. *)
Definition os_remove (p : path) (f : filesystem) : exn + filesystem :=
  match stat f p with
  | Some (File _) => inr (delete p f)
  | Some Dir => inl (OSError IsADirectoryError p)
  | None => inl (OSError (unreachable (dirname p) f) p)
  end.

(** [os.makedirs(p, exist_ok=True)]: walks down from the current directory,
    creating what is missing; a regular file on the way is an error, and
    then nothing has been created. *)
Fixpoint makedirs_from (pre rest : path) (f : filesystem) : exn + filesystem :=
  match rest with
  | [] => inr f
  | x :: rest' =>
      let p := pre ++ [x] in
      match f !! p with
      | Some Dir => makedirs_from p rest' f
      | Some (File _) =>
          inl (OSError (match rest' with
                        | [] => FileExistsError
                        | _ => NotADirectoryError
                        end) p)
      | None => makedirs_from p rest' (<[p := Dir]> f)
      end
  end.

Definition makedirs (p : path) (f : filesystem) : exn + filesystem :=
  makedirs_from [] p f.

(** [os.rename(src, dst)] as [shutil.move] needs it: the source must exist,
    the destination must lie in an existing directory outside the source,
    and only a regular file may be overwritten, by a regular file. *)
Definition rename (src dst : path) (f : filesystem) : exn + filesystem :=
  match stat f src with
  | None => inl (OSError FileNotFoundError src)
  | Some s =>
      if negb (isdir f (dirname dst)) then inl (OSError FileNotFoundError dst)
      else if bool_decide (src `prefix_of` dst) then inl (OSError ShutilError dst)
      else match stat f dst, s with
           | Some Dir, _ => inl (OSError IsADirectoryError dst)
           | Some (File _), Dir => inl (OSError FileExistsError dst)
           | _, _ => inr (relocate src dst f)
           end
  end.

(** [shutil.move(src, dst)]: a destination that is an existing directory
    receives the source inside it, under the source's own name. *)
Definition move (src dst : path) (f : filesystem) : exn + filesystem :=
  if isdir f dst then
    let real_dst := join dst (basename src) in
    if exists_ f real_dst then inl (OSError ShutilError real_dst)
    else rename src real_dst f
  else rename src dst f.

(** [shutil.copy2(src, dst)]: a destination that is an existing directory
    receives the copy inside it, under the source's own name. *)
Definition copy2 (src dst : path) (f : filesystem) : exn + filesystem :=
  let dst := if isdir f dst then join dst (basename src) else dst in
  match stat f src with
  | None => inl (OSError (unreachable (dirname src) f) src)
  | Some Dir => inl (OSError IsADirectoryError src)
  | Some (File data) =>
      if bool_decide (src = dst) then inl (OSError SameFileError dst)
      else if negb (isdir f (dirname dst))
      then inl (OSError (unreachable (dirname dst) f) dst)
      else if isdir f dst then inl (OSError IsADirectoryError dst)
      else inr (<[dst := File data]> f)
  end.

(** ** The world of a run *)

(** The five components of the pipeline; [stages] below records, as ghost
    state, which of them a run has entered, in order. *)
Inductive stage := Cleaner | Ensurer | Invoker | Normalizer | Seeder.

#[global] Instance stage_eq_dec : EqDecision stage.
Proof. solve_decision. Defined.

Record world := World {
  fs : filesystem;              (* the working directory's tree *)
  out : list string;            (* lines printed so far *)
  calls : list (list string);   (* command lines spawned so far *)
  stages : list stage           (* components entered so far *)
}.

(** What a run cannot control: the interpreter path, the host system, which
    modules can be imported, and what a spawned program does to the file
    system and returns as its exit status. *)
Record environment := Environment {
  sys_executable : string;
  platform_system : string;
  importable : string → bool;
  spawn : list string → filesystem → Z * filesystem
}.

(** A call returns, raises, or ends the process ([sys.exit]). *)
Inductive outcome (A : Type) :=
  | Ret (a : A)
  | Raise (e : exn)
  | Exit (code : Z).
Arguments Ret {A} a.
Arguments Raise {A} e.
Arguments Exit {A} code.

Definition M (A : Type) : Type := world → outcome A * world.

#[global] Instance M_ret : MRet M := fun A a w => (Ret a, w).
#[global] Instance M_bind : MBind M := fun A B k m w =>
  match m w with
  | (Ret a, w') => k a w'
  | (Raise e, w') => (Raise e, w')
  | (Exit c, w') => (Exit c, w')
  end.

Definition raise {A} (e : exn) : M A := fun w => (Raise e, w).
Definition sys_exit {A} (code : Z) : M A := fun w => (Exit code, w).

Definition print (s : string) : M unit := fun w =>
  (Ret tt, World (fs w) (out w ++ [s]) (calls w) (stages w)).
Definition enter (s : stage) : M unit := fun w =>
  (Ret tt, World (fs w) (out w) (calls w) (stages w ++ [s])).

(** A test on the file system. *)
Definition query {A} (q : filesystem → A) : M A := fun w => (Ret (q (fs w)), w).

(** A library call that changes the file system or raises. *)
Definition lift (op : filesystem → exn + filesystem) : M unit := fun w =>
  match op (fs w) with
  | inl e => (Raise e, w)
  | inr f => (Ret tt, World f (out w) (calls w) (stages w))
  end.

(** [try: m except <caught> as e: handler e]. *)
Definition try_except {A} (m : M A) (caught : exn → bool) (handler : exn → M A) : M A :=
  fun w =>
    match m w with
    | (Raise e, w') => if caught e then handler e w' else (Raise e, w')
    | r => r
    end.

(** [for x in l: body x]. *)
Fixpoint for_each {A} (l : list A) (body : A → M unit) : M unit :=
  match l with
  | [] => mret tt
  | x :: l' => body x ;; for_each l' body
  end.

(** [subprocess.check_call(cmd)]: blocks until the program has ended. *)
Definition check_call (E : environment) (cmd : list string) : M unit := fun w =>
  let (rc, f) := spawn E cmd (fs w) in
  let w' := World f (out w) (calls w ++ [cmd]) (stages w) in
  if (rc =? 0)%Z then (Ret tt, w') else (Raise (CalledProcessError rc cmd), w').

(** [import m] inside [try: ... except ImportError]. *)
Definition import (E : environment) (m : string) : M unit := fun w =>
  if importable E m then (Ret tt, w) else (Raise (ImportError m), w).

(** The exit status the operating system sees: an uncaught exception ends
    the interpreter with status 1. *)
Definition exit_status {A} (o : outcome A) : Z :=
  match o with Ret _ => 0 | Raise _ => 1 | Exit c => c end.

(** The truth value of an [Optional[str]]. *)
Definition truthy (p : option path) : bool :=
  match p with
  | Some p => negb (String.eqb (path_str p) "")
  | None => false
  end.

(** The template that is copied into the artifact, and the name it gets. *)
Definition config_template : path := ["config.example.toml"].

(** ** build_with_pyinstaller.py

    Both scripts start by forcing UTF-8 console output on Windows; that
    changes nothing in the state kept here and is left out. *)

Module PyInstaller.
Section Script.
Variable E : environment.

Definition APP_NAME : string := "captain_cmd".
Definition OUTPUT_DIR : path := [".build"].
Definition WORK_DIR : path := join OUTPUT_DIR ["pyinstaller-work"].
Definition SPEC_DIR : path := OUTPUT_DIR.

Definition COLLECT_ALL_PACKAGES : list string :=
  [ "agent"; "chat"; "tools"; "utils";
    "langchain"; "langchain_core"; "langchain_community"; "langgraph";
    "deepagents"; "langchain_deepseek"; "langchain_openai";
    "langchain_ollama"; "langchain_gemini"; "langchain_anthropic";
    "langchain_groq"; "langchain_mcp_adapters";
    "mcp"; "pydantic"; "pydantic_core"; "httpx"; "openai"; "anthropic";
    "rich"; "aiosqlite"; "tavily"; "langgraph_checkpoint_sqlite";
    "prompt_toolkit" ].

Definition clean_paths : list path :=
  [ OUTPUT_DIR; ["build"]; ["dist"]; ["main.dist"]; ["main.app"] ].

(** The body of the loop of [clean]. *)
Definition clean_path (path : path) : M unit :=
  d ← query (fun f => isdir f path);
  if d : bool then
    lift (rmtree_ignore_errors path) ;;
    print ("    Removed directory " +:+ path_str path)
  else
    r ← query (fun f => isfile f path);
    if r : bool then
      try_except
        (lift (os_remove path) ;;
         print ("    Removed file " +:+ path_str path))
        is_OSError (fun _ => mret tt)
    else mret tt.

Definition clean : M unit :=
  enter Cleaner ;;
  print "[*] Cleaning up previous builds..." ;;
  for_each clean_paths clean_path.

Definition pip_cmd : list string :=
  [ sys_executable E; "-m"; "pip"; "install"; "pyinstaller" ].

Definition ensure_pyinstaller_installed : M unit :=
  enter Ensurer ;;
  try_except (import E "PyInstaller")
    (fun e => match e with ImportError _ => true | _ => false end)
    (fun _ =>
       print "[*] PyInstaller not found. Installing..." ;;
       check_call E pip_cmd).

Definition _replace_path (path : path) : M unit :=
  d ← query (fun f => isdir f path);
  if d : bool then lift (rmtree_ignore_errors path)
  else
    r ← query (fun f => isfile f path);
    if r : bool then
      try_except (lift (os_remove path)) is_OSError (fun _ => mret tt)
    else mret tt.

Definition app_bundle_src : path := join OUTPUT_DIR [APP_NAME +:+ ".app"].
Definition folder_src : path := join OUTPUT_DIR [APP_NAME].
Definition app_target : path := join OUTPUT_DIR ["main.app"].
Definition folder_target : path := join OUTPUT_DIR ["main.dist"].

Definition normalize_output_directory : M (option path) :=
  enter Normalizer ;;
  a ← query (fun f => exists_ f app_bundle_src);
  if a : bool then
    _replace_path app_target ;;
    lift (move app_bundle_src app_target) ;;
    mret (Some app_target)
  else
    b ← query (fun f => exists_ f folder_src);
    if b : bool then
      _replace_path folder_target ;;
      lift (move folder_src folder_target) ;;
      mret (Some folder_target)
    else mret None.

Definition build_cmd : list string :=
  [ sys_executable E; "-m"; "PyInstaller"; "--clean"; "--noconfirm";
    "--console";
    "--name=" +:+ APP_NAME;
    "--distpath=" +:+ path_str OUTPUT_DIR;
    "--workpath=" +:+ path_str WORK_DIR;
    "--specpath=" +:+ path_str SPEC_DIR ]
  ++ map (fun package => "--collect-all=" +:+ package) COLLECT_ALL_PACKAGES
  ++ [ "main.py" ].

Definition build : M (option path) :=
  enter Invoker ;;
  print "[+] Starting PyInstaller build..." ;;
  lift (makedirs OUTPUT_DIR) ;;
  lift (makedirs WORK_DIR) ;;
  print ("[>] Command: " +:+ String.concat " " build_cmd) ;;
  try_except (check_call E build_cmd) is_CalledProcessError
    (fun _ => print "[ERROR] PyInstaller build failed." ;; sys_exit 1) ;;
  normalized_path ← normalize_output_directory;
  (if truthy normalized_path then
     print ("[SUCCESS] Build finished. Output: "
            +:+ path_str (default [] normalized_path))
   else print "[WARNING] Unable to locate PyInstaller output folder.") ;;
  mret normalized_path.

Definition post_build (dist_path : option path) : M unit :=
  enter Seeder ;;
  missing ← query (fun f =>
    negb (truthy dist_path) || negb (exists_ f (default [] dist_path)));
  if missing : bool then
    print "[WARNING] Dist directory missing, skip post-build tasks."
  else
    let dist_path := default [] dist_path in
    print "[*] Running post-build tasks..." ;;
    t ← query (fun f => exists_ f config_template);
    if negb t then
      print ("    [WARNING] Template file not found: " +:+ path_str config_template)
    else
      target_dir ← query (fun f =>
        if endswith (path_str dist_path) ".app" then
          let macos_dir := join dist_path ["Contents"; "MacOS"] in
          if exists_ f macos_dir then macos_dir else dist_path
        else dist_path);
      lift (makedirs target_dir) ;;
      let target_config := join target_dir ["config.toml"] in
      lift (copy2 config_template target_config) ;;
      print ("    Copied template '" +:+ path_str config_template
             +:+ "' to '" +:+ path_str target_config +:+ "'") ;;
      print (String "010"%char "[DONE] All done! Build output is in '"
             +:+ path_str dist_path +:+ "'.").

Definition main : M unit :=
  ensure_pyinstaller_installed ;;
  clean ;;
  output_path ← build;
  post_build output_path.
End Script.
End PyInstaller.

(** ** build.py *)

Module Nuitka.
Section Script.
Variable E : environment.

Definition dirs_to_remove : list path :=
  [ [".build"]; ["build"]; ["main.build"]; ["main.dist"];
    ["main.onefile-build"] ].

(** The body of the loop of [clean]. *)
Definition clean_path (d : path) : M unit :=
  e ← query (fun f => exists_ f d);
  if e : bool then
    try_except
      (lift (rmtree d) ;;
       print ("    Removed " +:+ path_str d))
      (fun _ => true)
      (fun e => print ("    Failed to remove " +:+ path_str d +:+ ": " +:+ exn_str e))
  else mret tt.

Definition clean : M unit :=
  enter Cleaner ;;
  print "[*] Cleaning up previous builds..." ;;
  for_each dirs_to_remove clean_path.

Definition get_os_specific_flags : list string :=
  let system := platform_system E in
  if String.eqb system "Windows" then []
  else if String.eqb system "Linux" then []
  else if String.eqb system "Darwin" then ["--macos-create-app-bundle"]
  else [].

Definition output_dir : path := [".build"].
Definition main_file : string := "main.py".

Definition build_cmd : list string :=
  [ sys_executable E; "-m"; "nuitka";
    "--standalone";
    "--assume-yes-for-downloads";
    "--output-dir=" +:+ path_str output_dir;
    "--remove-output";
    "--show-progress";
    "--show-memory";
    "--follow-imports";
    "--include-package=utils";
    "--include-package=chat";
    "--include-package=agent";
    "--include-package=tools";
    "--include-package=langchain";
    "--include-package=langchain_core";
    "--include-package=langchain_core.load";
    "--include-module=langchain_core.load.dump";
    "--include-module=langchain_core.load.load";
    "--include-module=langchain_core.load.serializable";
    "--include-package=langchain_core.runnables";
    "--include-package=langchain_core.tracers";
    "--include-package=langchain_core.callbacks";
    "--include-package=langgraph";
    "--include-package=deepagents";
    "--include-package=langchain_community";
    "--include-package=langchain_deepseek";
    "--include-package=langchain_openai";
    "--include-package=langchain_ollama";
    "--include-package=langchain_gemini";
    "--include-package=langchain_anthropic";
    "--include-package=langchain_groq";
    "--include-package=mcp";
    "--include-package=langchain_mcp_adapters";
    "--include-package=pydantic";
    "--include-package=pydantic_core";
    "--include-package=httpx";
    "--include-package=openai";
    "--include-package=anthropic";
    "--include-package=rich";
    "--include-package=aiosqlite";
    "--noinclude-pytest-mode=nofollow";
    "--noinclude-setuptools-mode=nofollow";
    "--nofollow-import-to=aiosqlite.tests";
    "--nofollow-import-to=unittest";
    "--nofollow-import-to=doctest" ]
  ++ get_os_specific_flags
  ++ [ main_file ].

Definition build : M unit :=
  enter Invoker ;;
  print "[+] Starting Nuitka build..." ;;
  print "[*] Using Nuitka's automatic import tracking (--follow-imports)" ;;
  print "    This will automatically detect and include all required packages" ;;
  print ("[>] Command: " +:+ String.concat " " build_cmd) ;;
  try_except
    (check_call E build_cmd ;;
     print "[SUCCESS] Build finished successfully!")
    is_CalledProcessError
    (fun _ => print "[ERROR] Build failed!" ;; sys_exit 1).

Definition main_dist : path := join [".build"] ["main.dist"].

Definition post_build : M unit :=
  enter Seeder ;;
  print "[*] Running post-build tasks..." ;;
  found ← query (fun f => exists_ f main_dist);
  (if negb found then
     print ("    [WARNING] Dist directory " +:+ path_str main_dist
            +:+ " not found. Did the build fail or using onefile mode?")
   else mret tt) ;;
  let dist_dir := if found : bool then main_dist else [".build"] in
  let possible_configs := config_template in
  t ← query (fun f => exists_ f possible_configs);
  (if t : bool then
     let source_config := possible_configs in
     let target_config := join dist_dir ["config.toml"] in
     try_except
       (lift (copy2 source_config target_config) ;;
        print ("    Copied template '" +:+ path_str source_config
               +:+ "' to '" +:+ path_str target_config +:+ "'"))
       (fun _ => true)
       (fun e => print ("    Failed to copy config file: " +:+ exn_str e))
   else
     print ("    [WARNING] No example config file found: "
            +:+ path_str possible_configs)) ;;
  print (String "010"%char "[DONE] All done! Build output is in '"
         +:+ path_str dist_dir +:+ "' folder.").

Definition pip_cmd : list string :=
  [ sys_executable E; "-m"; "pip"; "install"; "nuitka"; "zstandard" ].

Definition main : M unit :=
  enter Ensurer ;;
  try_except (import E "nuitka")
    (fun e => match e with ImportError _ => true | _ => false end)
    (fun _ =>
       print "[*] Nuitka not installed. Installing..." ;;
       check_call E pip_cmd) ;;
  clean ;;
  build ;;
  post_build.
End Script.
End Nuitka.

(** ** What the two cleaners do to the file system

    The loops of the two [clean] functions, without the console. *)

Definition sweep (step : path → filesystem → filesystem)
    (l : list path) (f : filesystem) : filesystem :=
  foldl (fun f p => step p f) f l.

Definition pyinstaller_clean_fs (p : path) (f : filesystem) : filesystem :=
  if isdir f p then prune p f else if isfile f p then delete p f else f.

Definition nuitka_clean_fs (p : path) (f : filesystem) : filesystem :=
  if isdir f p then prune p f else f.

(** ** What the normalizer does to the file system

    The target is cleared the way one step of the PyInstaller cleaner clears
    a path, then the output takes its place. *)

Definition bundle_normalized (f : filesystem) : filesystem :=
  relocate PyInstaller.app_bundle_src PyInstaller.app_target
    (pyinstaller_clean_fs PyInstaller.app_target f).

Definition folder_normalized (f : filesystem) : filesystem :=
  relocate PyInstaller.folder_src PyInstaller.folder_target
    (pyinstaller_clean_fs PyInstaller.folder_target f).

(** ** Frames

    [respects R m]: whatever [m] does and however it ends, the world it
    leaves is related by [R] to the world it started in. *)

Definition respects {A} (R : relation world) (m : M A) : Prop :=
  ∀ w, R w (m w).2.

Definition same_stages : relation world := fun w w' => stages w' = stages w.
Definition same_at (k : path) : relation world :=
  fun w w' => fs w' !! k = fs w !! k.

(** [emits m L]: the components [m] enters are, in order, the first so many
    of [L], and all of [L] when [m] returns. *)
Definition is_Ret {A} (o : outcome A) : bool :=
  match o with Ret _ => true | _ => false end.

Definition emits {A} (m : M A) (L : list stage) : Prop :=
  ∀ w, (∃ n, stages (m w).2 = stages w ++ take n L)
       ∧ (is_Ret (m w).1 = true → stages (m w).2 = stages w ++ L).

(** ** A run, cut where the backend is spawned

    [reach_backend] is a run up to the point where the backend's command
    line is about to be spawned; [finish] is the run from there on. *)

Definition pyinstaller_reach_backend (E : environment) : M unit :=
  PyInstaller.ensure_pyinstaller_installed E ;;
  PyInstaller.clean ;;
  enter Invoker ;;
  print "[+] Starting PyInstaller build..." ;;
  lift (makedirs PyInstaller.OUTPUT_DIR) ;;
  lift (makedirs PyInstaller.WORK_DIR) ;;
  print ("[>] Command: " +:+ String.concat " " (PyInstaller.build_cmd E)).

Definition pyinstaller_normalize_and_seed : M unit :=
  normalized_path ← PyInstaller.normalize_output_directory;
  (if truthy normalized_path then
     print ("[SUCCESS] Build finished. Output: "
            +:+ path_str (default [] normalized_path))
   else print "[WARNING] Unable to locate PyInstaller output folder.") ;;
  PyInstaller.post_build normalized_path.

Definition nuitka_reach_backend (E : environment) : M unit :=
  enter Ensurer ;;
  try_except (import E "nuitka")
    (fun e => match e with ImportError _ => true | _ => false end)
    (fun _ =>
       print "[*] Nuitka not installed. Installing..." ;;
       check_call E (Nuitka.pip_cmd E)) ;;
  Nuitka.clean ;;
  enter Invoker ;;
  print "[+] Starting Nuitka build..." ;;
  print "[*] Using Nuitka's automatic import tracking (--follow-imports)" ;;
  print "    This will automatically detect and include all required packages" ;;
  print ("[>] Command: " +:+ String.concat " " (Nuitka.build_cmd E)).

Definition pyinstaller_finish (E : environment) : M unit :=
  try_except (check_call E (PyInstaller.build_cmd E)) is_CalledProcessError
    (fun _ => print "[ERROR] PyInstaller build failed." ;; sys_exit 1) ;;
  pyinstaller_normalize_and_seed.

Definition nuitka_finish (E : environment) : M unit :=
  try_except
    (check_call E (Nuitka.build_cmd E) ;;
     print "[SUCCESS] Build finished successfully!")
    is_CalledProcessError
    (fun _ => print "[ERROR] Build failed!" ;; sys_exit 1) ;;
  Nuitka.post_build.

(** The world right after the backend has ended. *)
Definition spawned (E : environment) (cmd : list string) (w : world) : world :=
  World (spawn E cmd (fs w)).2 (out w) (calls w ++ [cmd]) (stages w).

Definition printed (s : string) (w : world) : world :=
  World (fs w) (out w ++ [s]) (calls w) (stages w).

Definition entered (s : stage) (w : world) : world :=
  World (fs w) (out w) (calls w) (stages w ++ [s]).

(** The directory in which the PyInstaller script's [post_build] puts the
    configuration for an artifact at [d]. *)
Definition pyinstaller_seed_dir (f : filesystem) (d : path) : path :=
  if endswith (path_str d) ".app" then
    if exists_ f (join d ["Contents"; "MacOS"])
    then join d ["Contents"; "MacOS"] else d
  else d.

(** The directory in which the Nuitka script's [post_build] puts the
    configuration, and what that function does to the file system and
    prints. *)
Definition nuitka_seed_dir (f : filesystem) : path :=
  if exists_ f Nuitka.main_dist then Nuitka.main_dist else [".build"].

Definition nuitka_post_build_fs (f : filesystem) : filesystem :=
  if exists_ f config_template then
    match copy2 config_template (join (nuitka_seed_dir f) ["config.toml"]) f with
    | inr f' => f'
    | inl _ => f
    end
  else f.

Definition nuitka_post_build_out (f : filesystem) : list string :=
  ["[*] Running post-build tasks..."]
  ++ (if exists_ f Nuitka.main_dist then []
      else ["    [WARNING] Dist directory " +:+ path_str Nuitka.main_dist
            +:+ " not found. Did the build fail or using onefile mode?"])
  ++ [if exists_ f config_template then
        match copy2 config_template (join (nuitka_seed_dir f) ["config.toml"]) f with
        | inr _ =>
            "    Copied template '" +:+ path_str config_template +:+ "' to '"
            +:+ path_str (join (nuitka_seed_dir f) ["config.toml"]) +:+ "'"
        | inl e => "    Failed to copy config file: " +:+ exn_str e
        end
      else "    [WARNING] No example config file found: "
           +:+ path_str config_template]
  ++ [String "010"%char "[DONE] All done! Build output is in '"
      +:+ path_str (nuitka_seed_dir f) +:+ "' folder."].

(** ** Further judgements on runs *)

(** [exits_one m]: if [m] ends the process, it is with status 1. *)
Definition exits_one {A} (m : M A) : Prop :=
  ∀ w c, (m w).1 = Exit c → c = 1%Z.

(** [spawns m L]: the command lines [m] spawns are, in order, the first so
    many of [L], and all of [L] when [m] returns. *)
Definition spawns {A} (m : M A) (L : list (list string)) : Prop :=
  ∀ w, (∃ n, calls (m w).2 = calls w ++ take n L)
       ∧ (is_Ret (m w).1 = true → calls (m w).2 = calls w ++ L).

Definition same_calls : relation world := fun w w' => calls w' = calls w.

(** [grows w w']: every path that has an entry in [w] has one in [w']. *)
Definition grows : relation world :=
  fun w w' => ∀ k, is_Some (fs w !! k) → is_Some (fs w' !! k).

(** ** A sample environment and file system *)

Module Sample.
(** A backend that exits with [rc] and, when [rc] is zero, leaves its
    output at [.build/<name>]; the installer changes nothing. *)
Definition spawn_demo (rc : Z) (name : string) (cmd : list string)
    (f : filesystem) : Z * filesystem :=
  if bool_decide ("pip" ∈ cmd) then (0%Z, f)
  else if (rc =? 0)%Z then
    (0%Z, <[ [".build"; name; "captain_cmd"] := File "ELF" ]>
          (<[ [".build"; name] := Dir ]> (<[ [".build"] := Dir ]> f)))
  else (rc, f).

Definition env (rc : Z) (name : string) : environment :=
  Environment "python3" "Linux" (fun _ => true) (spawn_demo rc name).

(** No backend installed, and an installer that fails. *)
Definition env_no_pip : environment :=
  Environment "python3" "Linux" (fun _ => false) (fun _ f => (1%Z, f)).

Definition checkout : filesystem :=
  <[ ["main.py"] := File "print('hello')" ]>
  (<[ ["config.example.toml"] := File "[llm]" ]>
  (<[ ["build"] := Dir ]>
  (<[ ["build"; "stale.o"] := File "old" ]> ∅))).

Definition start (f : filesystem) : world := World f [] [] [].

(** macOS.  Asked for an application bundle, the backend leaves
    [.build/main.app] and no [.build/main.dist]. *)
Definition spawn_macos (cmd : list string) (f : filesystem) : Z * filesystem :=
  if bool_decide ("--macos-create-app-bundle" ∈ cmd) then
    (0%Z, <[ [".build"; "main.app"; "Contents"; "MacOS"; "main"] := File "Mach-O" ]>
          (<[ [".build"; "main.app"; "Contents"; "MacOS"] := Dir ]>
          (<[ [".build"; "main.app"; "Contents"] := Dir ]>
          (<[ [".build"; "main.app"] := Dir ]>
          (<[ [".build"] := Dir ]> f)))))
  else (0%Z, f).

Definition env_macos : environment :=
  Environment "python3" "Darwin" (fun _ => true) spawn_macos.

(** What Nuitka leaves on macOS: a bundle and no [main.dist]. *)
Definition nuitka_bundle : filesystem :=
  <[ [".build"] := Dir ]>
  (<[ [".build"; "main.app"] := Dir ]>
  (<[ [".build"; "main.app"; "Contents"] := Dir ]>
  (<[ [".build"; "main.app"; "Contents"; "MacOS"] := Dir ]>
  (<[ [".build"; "main.app"; "Contents"; "MacOS"; "main"] := File "Mach-O" ]>
  (<[ ["config.example.toml"] := File "[llm]" ]> ∅))))).

(** Both output forms side by side, and a stale file at [.build/main.app]. *)
Definition both_outputs : filesystem :=
  <[ [".build"] := Dir ]>
  (<[ [".build"; "captain_cmd.app"] := Dir ]>
  (<[ [".build"; "captain_cmd.app"; "Contents"] := Dir ]>
  (<[ [".build"; "captain_cmd.app"; "Contents"; "MacOS"] := Dir ]>
  (<[ [".build"; "captain_cmd.app"; "Contents"; "MacOS"; "captain_cmd"] := File "Mach-O" ]>
  (<[ [".build"; "captain_cmd"] := Dir ]>
  (<[ [".build"; "captain_cmd"; "captain_cmd"] := File "ELF" ]>
  (<[ [".build"; "main.app"] := File "stale" ]>
  (<[ ["config.example.toml"] := File "[llm]" ]> ∅)))))))).

(** A checkout without the template. *)
Definition checkout_no_template : filesystem :=
  <[ ["main.py"] := File "print('hello')" ]> ∅.
End Sample.

(** * Facts about the file system *)

Section Filesystem.
Implicit Types (f : filesystem) (p q k src dst : path).

Lemma lookup_prune p f k :
  prune p f !! k = if decide (p `prefix_of` k) then None else f !! k.
Proof.
  unfold prune. case_decide as Hp.
  - apply map_lookup_filter_None. right. intros x _ Hn. by apply Hn.
  - destruct (f !! k) as [x|] eqn:Hk.
    + apply map_lookup_filter_Some. done.
    + apply map_lookup_filter_None. by left.
Qed.

Lemma lookup_graft src dst f k :
  graft src dst f !! k =
    if decide (dst `prefix_of` k) then f !! (src ++ drop (length dst) k) else None.
Proof.
  unfold graft. revert k.
  apply (map_fold_weak_ind (fun acc m => ∀ k, acc !! k =
    if decide (dst `prefix_of` k) then m !! (src ++ drop (length dst) k) else None)).
  - intros k. rewrite !lookup_empty. by case_decide.
  - intros i x m r Hi IH k. case_decide as Hsrc.
    + destruct Hsrc as [t ->]. rewrite drop_app_length.
      destruct (decide (dst ++ t = k)) as [<-|Hne].
      * rewrite lookup_insert_eq. rewrite decide_True by by eexists.
        by rewrite drop_app_length, lookup_insert_eq.
      * rewrite lookup_insert_ne by done. rewrite IH. case_decide as Hd; [|done].
        rewrite lookup_insert_ne; [done|]. intros Heq. apply Hne.
        destruct Hd as [u ->]. rewrite drop_app_length in Heq.
        by apply app_inv_head in Heq as ->.
    + rewrite IH. case_decide as Hd; [|done].
      rewrite lookup_insert_ne; [done|]. intros ->. apply Hsrc. by eexists.
Qed.

(** A well-formed tree has a directory above every entry. *)
Lemma wf_parent f k :
  wf f → is_Some (f !! k) → k ≠ [] ∧ isdir f (dirname k) = true.
Proof. intros Hwf [x Hx]. exact (Hwf k x Hx). Qed.

Lemma dirname_snoc p x : dirname (p ++ [x]) = p.
Proof. apply removelast_last. Qed.

Lemma stat_lookup f p : p ≠ [] → stat f p = f !! p.
Proof. by destruct p. Qed.

Lemma isdir_lookup f p : p ≠ [] → isdir f p = true → f !! p = Some Dir.
Proof.
  unfold isdir, stat. destruct p; [done|]. intros _.
  destruct (f !! _) as [[]|]; done.
Qed.

Lemma wf_ancestor f p q :
  wf f → is_Some (f !! (p ++ q)) → q ≠ [] → isdir f p = true.
Proof.
  intros Hwf. induction q as [|x q IH] using rev_ind; [done|].
  intros Hs _. rewrite app_assoc in Hs.
  destruct (wf_parent _ _ Hwf Hs) as [_ Hd]. rewrite dirname_snoc in Hd.
  destruct q as [|y q']; [by rewrite app_nil_r in Hd|].
  apply IH; [|done]. exists Dir. apply isdir_lookup; [by destruct p|done].
Qed.
End Filesystem.

(** * Running the monad *)

Ltac unfold_monad :=
  unfold mbind, M_bind, mret, M_ret, query, lift, print, enter, try_except,
    raise, sys_exit in *.

Section Steps.
Context {A : Type}.
Implicit Types (k : M A) (w : world).

Lemma bind_enter s k w :
  (enter s ;; k) w = k (World (fs w) (out w) (calls w) (stages w ++ [s])).
Proof. reflexivity. Qed.

Lemma bind_print s k w :
  (print s ;; k) w = k (World (fs w) (out w ++ [s]) (calls w) (stages w)).
Proof. reflexivity. Qed.

Lemma bind_query {B} (q : filesystem → B) (k : B → M A) w :
  (x ← query q; k x) w = k (q (fs w)) w.
Proof. reflexivity. Qed.

Lemma bind_ret {B} (b : B) (k : B → M A) w : (x ← mret b; k x) w = k b w.
Proof. reflexivity. Qed.

Lemma bind_lift_ok op k w f :
  op (fs w) = inr f → (lift op ;; k) w = k (World f (out w) (calls w) (stages w)).
Proof. intros H. unfold mbind, M_bind, lift. by rewrite H. Qed.

Lemma bind_lift_err op k w e :
  op (fs w) = inl e → (lift op ;; k) w = (Raise e, w).
Proof. intros H. unfold mbind, M_bind, lift. by rewrite H. Qed.

End Steps.

Section Loops.
Lemma for_each_ret {A} (body : A → M unit) (step : A → filesystem → filesystem)
    (l : list A) :
  (∀ x w, ∃ o, body x w = (Ret tt, World (step x (fs w)) o (calls w) (stages w))) →
  ∀ w, ∃ o, for_each l body w =
    (Ret tt, World (foldl (fun f x => step x f) (fs w) l) o (calls w) (stages w)).
Proof.
  intros Hbody. induction l as [|x l IH]; intros w.
  - exists (out w). by destruct w.
  - cbn [for_each foldl]. unfold mbind, M_bind.
    destruct (Hbody x w) as [o ->]. destruct (IH (World (step x (fs w)) o (calls w) (stages w))) as [o' ->].
    by exists o'.
Qed.
End Loops.

(** * The cleaners *)

Section Sweep.
Variable step : path → filesystem → filesystem.
Variable settled : path → filesystem → Prop.
Hypothesis step_sub : ∀ p f, step p f ⊆ f.
Hypothesis step_settles : ∀ p f, p ≠ [] → settled p (step p f).
Hypothesis settled_sub : ∀ p f f', settled p f → f' ⊆ f → settled p f'.
Hypothesis settled_fix : ∀ p f, p ≠ [] → settled p f → step p f = f.

Lemma sweep_sub l f : sweep step l f ⊆ f.
Proof.
  revert f. induction l as [|p l IH]; intros f; [done|].
  cbn. etrans; [apply IH|apply step_sub].
Qed.

Lemma sweep_settles l f p :
  Forall (fun p => p ≠ []) l → p ∈ l → settled p (sweep step l f).
Proof.
  intros Hne. revert f. induction Hne as [|p' l Hp' Hne IH]; intros f Hin.
  - by apply elem_of_nil in Hin.
  - cbn. apply elem_of_cons in Hin as [Heq|Hin]; [subst p'|by apply IH].
    eapply settled_sub; [by apply (step_settles p f)|]. apply sweep_sub.
Qed.

Lemma sweep_fix l f :
  Forall (fun p => p ≠ []) l → (∀ p, p ∈ l → settled p f) → sweep step l f = f.
Proof.
  intros Hne. revert f. induction Hne as [|p l Hp Hne IH]; intros f Hall; [done|].
  cbn. rewrite settled_fix by (done || apply Hall; left).
  apply IH. intros q Hq. apply Hall. by right.
Qed.

Lemma sweep_idempotent l f :
  Forall (fun p => p ≠ []) l → sweep step l (sweep step l f) = sweep step l f.
Proof. intros Hne. apply sweep_fix; [done|]. intros p Hp. by apply sweep_settles. Qed.
End Sweep.

Section Cleaners.
Implicit Types (f : filesystem) (p : path) (w : world).

Lemma prune_subseteq p f : prune p f ⊆ f.
Proof. apply map_filter_subseteq. Qed.

Lemma pyinstaller_clean_fs_sub p f : pyinstaller_clean_fs p f ⊆ f.
Proof.
  unfold pyinstaller_clean_fs. destruct (isdir f p); [apply prune_subseteq|].
  destruct (isfile f p); [apply delete_subseteq|done].
Qed.

Lemma nuitka_clean_fs_sub p f : nuitka_clean_fs p f ⊆ f.
Proof.
  unfold nuitka_clean_fs. destruct (isdir f p); [apply prune_subseteq|done].
Qed.

Lemma pyinstaller_clean_fs_gone p f :
  p ≠ [] → pyinstaller_clean_fs p f !! p = None.
Proof.
  intros Hp. unfold pyinstaller_clean_fs, isdir, isfile, stat.
  destruct p as [|x p]; [done|].
  destruct (f !! (x :: p)) as [[d|]|] eqn:Hf.
  - apply lookup_delete_eq.
  - rewrite lookup_prune. by rewrite decide_True.
  - done.
Qed.

Lemma nuitka_clean_fs_nodir p f :
  p ≠ [] → isdir (nuitka_clean_fs p f) p = false.
Proof.
  intros Hp. unfold nuitka_clean_fs. destruct (isdir f p) eqn:Hd; [|done].
  unfold isdir, stat. destruct p as [|x p]; [done|].
  rewrite lookup_prune. by rewrite decide_True.
Qed.

Lemma pyinstaller_clean_fs_fix p f :
  p ≠ [] → f !! p = None → pyinstaller_clean_fs p f = f.
Proof.
  intros Hp Hf. unfold pyinstaller_clean_fs, isdir, isfile, stat.
  destruct p as [|x p]; [done|]. by rewrite Hf.
Qed.

Lemma nuitka_clean_fs_fix p f :
  isdir f p = false → nuitka_clean_fs p f = f.
Proof. intros Hd. unfold nuitka_clean_fs. by rewrite Hd. Qed.

Lemma isdir_subseteq p f f' :
  p ≠ [] → isdir f p = false → f' ⊆ f → isdir f' p = false.
Proof.
  intros Hp Hd Hsub. unfold isdir, stat in *. destruct p as [|x p]; [done|].
  destruct (f' !! (x :: p)) as [[d|]|] eqn:Hf'; [done| |done].
  by rewrite (lookup_weaken _ _ _ _ Hf' Hsub) in Hd.
Qed.

Lemma pyinstaller_clean_path_spec p w :
  ∃ o, PyInstaller.clean_path p w =
    (Ret tt, World (pyinstaller_clean_fs p (fs w)) o (calls w) (stages w)).
Proof.
  destruct w as [f o c s]. unfold PyInstaller.clean_path, pyinstaller_clean_fs.
  unfold_monad. cbn. unfold rmtree_ignore_errors, rmtree, os_remove, isdir, isfile.
  destruct (stat f p) as [[d|]|] eqn:Hst; cbn; repeat (rewrite Hst; cbn); eauto.
Qed.

Lemma nuitka_clean_path_spec p w :
  ∃ o, Nuitka.clean_path p w =
    (Ret tt, World (nuitka_clean_fs p (fs w)) o (calls w) (stages w)).
Proof.
  destruct w as [f o c s]. unfold Nuitka.clean_path, nuitka_clean_fs.
  unfold_monad. cbn. unfold rmtree, exists_, isdir.
  destruct (stat f p) as [[d|]|] eqn:Hst; cbn; repeat (rewrite Hst; cbn); eauto.
Qed.

Lemma pyinstaller_clean_spec w :
  ∃ o, PyInstaller.clean w =
    (Ret tt, World (sweep pyinstaller_clean_fs PyInstaller.clean_paths (fs w)) o
                   (calls w) (stages w ++ [Cleaner])).
Proof.
  unfold PyInstaller.clean. unfold mbind, M_bind, enter, print. cbn [fs out calls stages].
  edestruct (for_each_ret PyInstaller.clean_path pyinstaller_clean_fs
               PyInstaller.clean_paths pyinstaller_clean_path_spec) as [o ->].
  by exists o.
Qed.

Lemma nuitka_clean_spec w :
  ∃ o, Nuitka.clean w =
    (Ret tt, World (sweep nuitka_clean_fs Nuitka.dirs_to_remove (fs w)) o
                   (calls w) (stages w ++ [Cleaner])).
Proof.
  unfold Nuitka.clean. unfold mbind, M_bind, enter, print. cbn [fs out calls stages].
  edestruct (for_each_ret Nuitka.clean_path nuitka_clean_fs
               Nuitka.dirs_to_remove nuitka_clean_path_spec) as [o ->].
  by exists o.
Qed.

Lemma clean_paths_nonempty :
  Forall (fun p : path => p ≠ []) PyInstaller.clean_paths
  ∧ Forall (fun p : path => p ≠ []) Nuitka.dirs_to_remove.
Proof. split; repeat constructor; done. Qed.

Lemma pyinstaller_sweep_idempotent f :
  let l := PyInstaller.clean_paths in
  sweep pyinstaller_clean_fs l (sweep pyinstaller_clean_fs l f)
  = sweep pyinstaller_clean_fs l f.
Proof.
  apply (sweep_idempotent pyinstaller_clean_fs (fun p f => f !! p = None)).
  - apply pyinstaller_clean_fs_sub.
  - intros p g Hp. by apply pyinstaller_clean_fs_gone.
  - intros p g g' Hg Hsub. by eapply lookup_weaken_None.
  - intros p g Hp. by apply pyinstaller_clean_fs_fix.
  - apply clean_paths_nonempty.
Qed.

Lemma nuitka_sweep_idempotent f :
  let l := Nuitka.dirs_to_remove in
  sweep nuitka_clean_fs l (sweep nuitka_clean_fs l f) = sweep nuitka_clean_fs l f.
Proof.
  apply (sweep_idempotent nuitka_clean_fs (fun p f => p ≠ [] ∧ isdir f p = false)).
  - apply nuitka_clean_fs_sub.
  - intros p g Hp. split; [done|]. by apply nuitka_clean_fs_nodir.
  - intros p g g' [Hp Hg] Hsub. split; [done|]. by eapply isdir_subseteq.
  - intros p g _ [_ Hg]. by apply nuitka_clean_fs_fix.
  - apply clean_paths_nonempty.
Qed.

(** The paths of [build.py] are names in the current directory, so none of
    them lies below another. *)
Lemma nuitka_dirs_flat p q :
  p ∈ Nuitka.dirs_to_remove → q ∈ Nuitka.dirs_to_remove →
  q `prefix_of` p → q = p.
Proof.
  assert (Hone : ∀ k, k ∈ Nuitka.dirs_to_remove → length k = 1).
  { intros k Hk. unfold Nuitka.dirs_to_remove in Hk.
    repeat (apply elem_of_cons in Hk as [->|Hk]; [done|]).
    by apply elem_of_nil in Hk. }
  intros Hp Hq Hpre. apply prefix_length_eq; [done|].
  by rewrite (Hone p), (Hone q).
Qed.

(** [shutil.rmtree] removes no regular file that is itself on the list. *)
Lemma nuitka_sweep_keeps_file l f p :
  (∀ q, q ∈ l → q `prefix_of` p → q = p) → isfile f p = true →
  sweep nuitka_clean_fs l f !! p = f !! p.
Proof.
  revert f. induction l as [|q l IH]; intros f Hsame Hf; [done|].
  change (sweep nuitka_clean_fs (q :: l) f)
    with (sweep nuitka_clean_fs l (nuitka_clean_fs q f)).
  assert (Hstep : nuitka_clean_fs q f !! p = f !! p).
  { unfold nuitka_clean_fs. destruct (isdir f q) eqn:Hd; [|done].
    rewrite lookup_prune. case_decide as Hpre; [|done].
    rewrite (Hsame q) in Hd by (done || by left).
    unfold isfile, isdir in *. by destruct (stat f p) as [[]|]. }
  rewrite IH.
  - exact Hstep.
  - intros r Hr. apply Hsame. by right.
  - unfold isfile, stat in *. destruct p; [done|]. by rewrite Hstep.
Qed.

(** After the loop of [build.py] an enumerated path is there exactly when
    it was a regular file before. *)
Lemma nuitka_sweep_leaves_files f p :
  p ∈ Nuitka.dirs_to_remove →
  exists_ (sweep nuitka_clean_fs Nuitka.dirs_to_remove f) p = isfile f p.
Proof.
  intros Hp.
  assert (Hne : p ≠ []).
  { pose proof (proj2 clean_paths_nonempty) as Hall.
    rewrite Forall_forall in Hall. by apply Hall. }
  destruct (isfile f p) eqn:Hfile.
  - unfold exists_. rewrite stat_lookup by done.
    rewrite nuitka_sweep_keeps_file; [|by intros q Hq; apply nuitka_dirs_flat|done].
    unfold isfile in Hfile. rewrite stat_lookup in Hfile by done.
    by destruct (f !! p).
  - assert (Hd : isdir (sweep nuitka_clean_fs Nuitka.dirs_to_remove f) p = false).
    { apply (sweep_settles nuitka_clean_fs (fun p f => p ≠ [] ∧ isdir f p = false));
        try done.
      - apply nuitka_clean_fs_sub.
      - intros q g Hq. split; [done|]. by apply nuitka_clean_fs_nodir.
      - intros q g g' [Hq Hg] Hsub. split; [done|]. by eapply isdir_subseteq.
      - apply clean_paths_nonempty. }
    pose proof (sweep_sub nuitka_clean_fs nuitka_clean_fs_sub
                  Nuitka.dirs_to_remove f) as Hsub.
    unfold exists_, isdir, isfile in *. rewrite stat_lookup in * by done.
    destruct (sweep nuitka_clean_fs Nuitka.dirs_to_remove f !! p) as [e|] eqn:He;
      [|done].
    rewrite (lookup_weaken _ _ _ _ He Hsub) in Hfile. by destruct e.
Qed.
End Cleaners.

(** C7, as the scripts have it.  Neither cleaner ever raises, whatever the
    workspace holds; a path that does not exist is skipped without any
    effect; and cleaning a second time changes nothing in the file system
    that the first cleaning left.  That state is empty of the enumerated
    paths for the PyInstaller script.  For the Nuitka script it is not: none
    of its paths is left as a directory, but a regular file at one of them is
    left as it was, so that after cleaning such a path exists exactly when it
    was a regular file before. *)
Theorem clean_idempotent (w : world) :
  ((PyInstaller.clean w).1 = Ret tt ∧ (Nuitka.clean w).1 = Ret tt)
  ∧ (∀ p, exists_ (fs w) p = false →
       PyInstaller.clean_path p w = (Ret tt, w)
       ∧ Nuitka.clean_path p w = (Ret tt, w))
  ∧ fs (PyInstaller.clean (PyInstaller.clean w).2).2 = fs (PyInstaller.clean w).2
  ∧ fs (Nuitka.clean (Nuitka.clean w).2).2 = fs (Nuitka.clean w).2
  ∧ (∀ p, p ∈ PyInstaller.clean_paths →
       exists_ (fs (PyInstaller.clean w).2) p = false)
  ∧ (∀ p, p ∈ Nuitka.dirs_to_remove →
       isdir (fs (Nuitka.clean w).2) p = false)
  ∧ (∀ p, p ∈ Nuitka.dirs_to_remove → isfile (fs w) p = true →
       fs (Nuitka.clean w).2 !! p = fs w !! p)
  ∧ (∀ p, p ∈ Nuitka.dirs_to_remove →
       exists_ (fs (Nuitka.clean w).2) p = isfile (fs w) p).
Proof.
  destruct (pyinstaller_clean_spec w) as [o1 H1].
  destruct (nuitka_clean_spec w) as [o2 H2].
  rewrite H1, H2. cbn [fst snd].
  destruct (pyinstaller_clean_spec
              (World (sweep pyinstaller_clean_fs PyInstaller.clean_paths (fs w)) o1
                     (calls w) (stages w ++ [Cleaner]))) as [o3 ->].
  destruct (nuitka_clean_spec
              (World (sweep nuitka_clean_fs Nuitka.dirs_to_remove (fs w)) o2
                     (calls w) (stages w ++ [Cleaner]))) as [o4 ->].
  cbn [fst snd fs]. split; [done|]. split; [|repeat split].
  - intros p Hex. destruct w as [f o c s]. cbn in Hex. split.
    + unfold PyInstaller.clean_path. unfold_monad. cbn.
      unfold exists_ in Hex. unfold isdir, isfile.
      by destruct (stat f p) eqn:Hst; [|cbn; rewrite Hst].
    + unfold Nuitka.clean_path. unfold_monad. cbn. by rewrite Hex.
  - apply pyinstaller_sweep_idempotent.
  - apply nuitka_sweep_idempotent.
  - intros p Hp.
    assert (Hne : p ≠ []).
    { pose proof (proj1 clean_paths_nonempty) as Hall.
      rewrite Forall_forall in Hall. by apply Hall. }
    unfold exists_, stat. destruct p as [|x p]; [done|].
    rewrite (sweep_settles pyinstaller_clean_fs (fun p f => f !! p = None)); try done.
    + apply pyinstaller_clean_fs_sub.
    + intros q g Hq. by apply pyinstaller_clean_fs_gone.
    + intros q g g' Hg Hsub. by eapply lookup_weaken_None.
    + apply clean_paths_nonempty.
  - intros p Hp.
    apply (sweep_settles nuitka_clean_fs (fun p f => p ≠ [] ∧ isdir f p = false));
      try done.
    + apply nuitka_clean_fs_sub.
    + intros q g Hq. split; [done|]. by apply nuitka_clean_fs_nodir.
    + intros q g g' [Hq Hg] Hsub. split; [done|]. by eapply isdir_subseteq.
    + apply clean_paths_nonempty.
  - intros p Hp Hfile. apply nuitka_sweep_keeps_file; [|done].
    intros q Hq. by apply nuitka_dirs_flat.
  - intros p Hp. by apply nuitka_sweep_leaves_files.
Qed.

(** C7 as stated fails for the Nuitka script: a regular file named [.build]
    is on the cleaner's list and survives it, the first time and the second,
    so the state that cleaning reaches is not empty. *)
Lemma clean_idempotent_counterexample :
  let f : filesystem := <[ [".build"] := File "stale" ]> Sample.checkout in
  let once := Nuitka.clean (Sample.start f) in
  let twice := Nuitka.clean once.2 in
  In [".build"] Nuitka.dirs_to_remove
  ∧ once.1 = Ret tt ∧ twice.1 = Ret tt
  ∧ fs once.2 !! [".build"] = Some (File "stale")
  ∧ fs twice.2 !! [".build"] = Some (File "stale")
  ∧ "    Failed to remove .build: [Errno 20] Not a directory: '.build'"
      ∈ out once.2.
Proof.
  cbn zeta. split; [by left|].
  repeat split; try (vm_compute; reflexivity).
  apply (bool_decide_unpack _). vm_compute. exact I.
Qed.

(** * The output normalizer *)

Section Normalizer.
Implicit Types (f : filesystem) (p q k src dst par : path) (w : world).

Lemma lookup_relocate src dst f k :
  relocate src dst f !! k =
    if decide (dst `prefix_of` k) then f !! (src ++ drop (length dst) k)
    else if decide (src `prefix_of` k) then None else f !! k.
Proof.
  unfold relocate. rewrite lookup_union, lookup_graft, !lookup_prune.
  repeat case_decide; try done; by destruct (f !! _).
Qed.

Lemma pyinstaller_clean_fs_other p f k :
  ¬ p `prefix_of` k → pyinstaller_clean_fs p f !! k = f !! k.
Proof.
  intros Hk. unfold pyinstaller_clean_fs.
  destruct (isdir f p); [by rewrite lookup_prune, decide_False|].
  destruct (isfile f p); [|done].
  apply lookup_delete_ne. by intros ->.
Qed.

Lemma replace_path_spec p w :
  PyInstaller._replace_path p w =
    (Ret tt, World (pyinstaller_clean_fs p (fs w)) (out w) (calls w) (stages w)).
Proof.
  destruct w as [f o c s]. unfold PyInstaller._replace_path, pyinstaller_clean_fs.
  unfold_monad. cbn. unfold rmtree_ignore_errors, rmtree, os_remove, isdir, isfile.
  destruct (stat f p) as [[d|]|] eqn:Hst; cbn; repeat (rewrite Hst; cbn); eauto.
Qed.

Lemma sibling_not_prefix par (x y : string) :
  x ≠ y → ¬ (par ++ [x]) `prefix_of` (par ++ [y]).
Proof.
  intros Hxy [t Ht]. rewrite <- app_assoc in Ht. apply app_inv_head in Ht.
  by injection Ht.
Qed.

Lemma sibling_not_below par (x y : string) q :
  x ≠ y → ¬ (par ++ [x]) `prefix_of` ((par ++ [y]) ++ q).
Proof.
  intros Hxy [t Ht]. rewrite <- !app_assoc in Ht. apply app_inv_head in Ht.
  by injection Ht.
Qed.

(** The artifact the normalizer leaves: the tree of [src] at [dst]. *)
Lemma replace_then_move {A} par (x y : string) (k : M A) w :
  let src := par ++ [x] in
  let dst := par ++ [y] in
  wf (fs w) → x ≠ y → exists_ (fs w) src = true →
  (PyInstaller._replace_path dst ;; lift (move src dst) ;; k) w =
    k (World (relocate src dst (pyinstaller_clean_fs dst (fs w)))
             (out w) (calls w) (stages w)).
Proof.
  intros src dst Hwf Hxy Hsrc. unfold mbind at 1, M_bind at 1.
  rewrite replace_path_spec.
  destruct w as [f o c s]. cbn [fs out calls stages] in *.
  set (f1 := pyinstaller_clean_fs dst f).
  assert (Hsrc_ne : src ≠ []) by (subst src; by destruct par).
  assert (Hdst_ne : dst ≠ []) by (subst dst; by destruct par).
  assert (Hdst1 : stat f1 dst = None).
  { rewrite stat_lookup by done. by apply pyinstaller_clean_fs_gone. }
  assert (Hsrc1 : stat f1 src = stat f src).
  { rewrite !stat_lookup by done.
    apply pyinstaller_clean_fs_other. by apply sibling_not_prefix. }
  assert (Hpar : isdir f1 par = true).
  { assert (Hp : isdir f par = true).
    { unfold exists_ in Hsrc. rewrite stat_lookup in Hsrc by done.
      destruct (f !! src) as [e|] eqn:Hf; [|done].
      destruct (wf_parent f src Hwf) as [_ Hd]; [by eexists|].
      subst src. by rewrite dirname_snoc in Hd. }
    destruct par as [|z par']; [done|].
    unfold isdir in *. rewrite stat_lookup in * by done.
    subst f1. rewrite pyinstaller_clean_fs_other; [done|]. apply prefix_snoc_not. }
  apply bind_lift_ok. cbn [fs]. unfold move, rename.
  unfold isdir at 1. fold f1. rewrite Hdst1, Hsrc1.
  unfold exists_ in Hsrc. destruct (stat f src) as [e|]; [|done].
  subst dst. rewrite dirname_snoc, Hpar. cbn [negb].
  by rewrite bool_decide_eq_false_2 by by apply sibling_not_prefix.
Qed.

Lemma lookup_normalized par (x y : string) f k :
  let src := par ++ [x] in
  let dst := par ++ [y] in
  x ≠ y →
  relocate src dst (pyinstaller_clean_fs dst f) !! k =
    if decide (dst `prefix_of` k) then f !! (src ++ drop (length dst) k)
    else if decide (src `prefix_of` k) then None else f !! k.
Proof.
  intros src dst Hxy. rewrite lookup_relocate. case_decide as Hd.
  - apply pyinstaller_clean_fs_other. apply sibling_not_below. congruence.
  - case_decide; [done|]. by apply pyinstaller_clean_fs_other.
Qed.
End Normalizer.

Section Normalize.
Implicit Types (f : filesystem) (w : world) (q : path).

Lemma normalize_bundle w :
  wf (fs w) → exists_ (fs w) PyInstaller.app_bundle_src = true →
  PyInstaller.normalize_output_directory w =
    (Ret (Some PyInstaller.app_target),
     World (bundle_normalized (fs w)) (out w) (calls w) (stages w ++ [Normalizer])).
Proof.
  intros Hwf Hb. unfold PyInstaller.normalize_output_directory.
  rewrite bind_enter, bind_query. cbn [fs]. rewrite Hb.
  by rewrite (replace_then_move [".build"] "captain_cmd.app" "main.app").
Qed.

Lemma normalize_folder w :
  wf (fs w) → exists_ (fs w) PyInstaller.app_bundle_src = false →
  exists_ (fs w) PyInstaller.folder_src = true →
  PyInstaller.normalize_output_directory w =
    (Ret (Some PyInstaller.folder_target),
     World (folder_normalized (fs w)) (out w) (calls w) (stages w ++ [Normalizer])).
Proof.
  intros Hwf Hb Hf. unfold PyInstaller.normalize_output_directory.
  rewrite bind_enter, bind_query. cbn [fs]. rewrite Hb.
  rewrite bind_query. cbn [fs]. rewrite Hf.
  by rewrite (replace_then_move [".build"] "captain_cmd" "main.dist").
Qed.

Lemma normalize_miss w :
  exists_ (fs w) PyInstaller.app_bundle_src = false →
  exists_ (fs w) PyInstaller.folder_src = false →
  PyInstaller.normalize_output_directory w =
    (Ret None, World (fs w) (out w) (calls w) (stages w ++ [Normalizer])).
Proof.
  intros Hb Hf. unfold PyInstaller.normalize_output_directory.
  rewrite bind_enter, bind_query. cbn [fs]. rewrite Hb.
  rewrite bind_query. cbn [fs]. by rewrite Hf.
Qed.

Lemma lookup_bundle_normalized f k :
  bundle_normalized f !! k =
    if decide (PyInstaller.app_target `prefix_of` k)
    then f !! (PyInstaller.app_bundle_src ++ drop 2 k)
    else if decide (PyInstaller.app_bundle_src `prefix_of` k) then None
    else f !! k.
Proof.
  apply (lookup_normalized [".build"] "captain_cmd.app" "main.app"). done.
Qed.

Lemma lookup_folder_normalized f k :
  folder_normalized f !! k =
    if decide (PyInstaller.folder_target `prefix_of` k)
    then f !! (PyInstaller.folder_src ++ drop 2 k)
    else if decide (PyInstaller.folder_src `prefix_of` k) then None
    else f !! k.
Proof.
  apply (lookup_normalized [".build"] "captain_cmd" "main.dist"). done.
Qed.
End Normalize.

Section NormalizeLookups.
Implicit Types (f : filesystem) (q k : path).

Lemma bundle_normalized_target f q :
  bundle_normalized f !! (PyInstaller.app_target ++ q)
  = f !! (PyInstaller.app_bundle_src ++ q).
Proof.
  rewrite lookup_bundle_normalized. rewrite decide_True by by eexists. done.
Qed.

Lemma bundle_normalized_source f q :
  bundle_normalized f !! (PyInstaller.app_bundle_src ++ q) = None.
Proof.
  rewrite lookup_bundle_normalized. rewrite decide_False, decide_True; [done|by eexists|].
  apply (sibling_not_below [".build"] "main.app" "captain_cmd.app"). done.
Qed.

Lemma bundle_normalized_other f k :
  ¬ PyInstaller.app_target `prefix_of` k →
  ¬ PyInstaller.app_bundle_src `prefix_of` k →
  bundle_normalized f !! k = f !! k.
Proof.
  intros H1 H2. rewrite lookup_bundle_normalized. by rewrite !decide_False.
Qed.

Lemma folder_normalized_target f q :
  folder_normalized f !! (PyInstaller.folder_target ++ q)
  = f !! (PyInstaller.folder_src ++ q).
Proof.
  rewrite lookup_folder_normalized. rewrite decide_True by by eexists. done.
Qed.

Lemma folder_normalized_source f q :
  folder_normalized f !! (PyInstaller.folder_src ++ q) = None.
Proof.
  rewrite lookup_folder_normalized. rewrite decide_False, decide_True; [done|by eexists|].
  apply (sibling_not_below [".build"] "main.dist" "captain_cmd"). done.
Qed.

Lemma folder_normalized_other f k :
  ¬ PyInstaller.folder_target `prefix_of` k →
  ¬ PyInstaller.folder_src `prefix_of` k →
  folder_normalized f !! k = f !! k.
Proof.
  intros H1 H2. rewrite lookup_folder_normalized. by rewrite !decide_False.
Qed.
End NormalizeLookups.

(** C1. On a well-formed tree the normalizer looks for the bundle
    [.build/captain_cmd.app] first and for the flat folder
    [.build/captain_cmd] second.  The one it finds ends up at
    [.build/main.app], respectively [.build/main.dist]: the target holds
    exactly the tree the source held (so whatever occupied the target before
    is gone), nothing is left at the source (a move, not a copy), and
    every other path is as it was.  If neither exists the result is [None],
    nothing is raised and the file system is unchanged. *)
Theorem normalize_output_directory_moves (w : world) (Hwf : wf (fs w)) :
  let r := PyInstaller.normalize_output_directory w in
  (exists_ (fs w) PyInstaller.app_bundle_src = true →
     r.1 = Ret (Some PyInstaller.app_target)
     ∧ (∀ q, fs r.2 !! (PyInstaller.app_target ++ q)
             = fs w !! (PyInstaller.app_bundle_src ++ q))
     ∧ (∀ q, fs r.2 !! (PyInstaller.app_bundle_src ++ q) = None)
     ∧ (∀ k, ¬ PyInstaller.app_target `prefix_of` k →
             ¬ PyInstaller.app_bundle_src `prefix_of` k →
             fs r.2 !! k = fs w !! k))
  ∧ (exists_ (fs w) PyInstaller.app_bundle_src = false →
     exists_ (fs w) PyInstaller.folder_src = true →
     r.1 = Ret (Some PyInstaller.folder_target)
     ∧ (∀ q, fs r.2 !! (PyInstaller.folder_target ++ q)
             = fs w !! (PyInstaller.folder_src ++ q))
     ∧ (∀ q, fs r.2 !! (PyInstaller.folder_src ++ q) = None)
     ∧ (∀ k, ¬ PyInstaller.folder_target `prefix_of` k →
             ¬ PyInstaller.folder_src `prefix_of` k →
             fs r.2 !! k = fs w !! k))
  ∧ (exists_ (fs w) PyInstaller.app_bundle_src = false →
     exists_ (fs w) PyInstaller.folder_src = false →
     r.1 = Ret None ∧ fs r.2 = fs w).
Proof.
  cbn zeta. split; [|split].
  - intros Hb. rewrite normalize_bundle by done. cbn [fst snd fs].
    split; [done|]. split; [apply bundle_normalized_target|].
    split; [apply bundle_normalized_source|apply bundle_normalized_other].
  - intros Hb Hf. rewrite normalize_folder by done. cbn [fst snd fs].
    split; [done|]. split; [apply folder_normalized_target|].
    split; [apply folder_normalized_source|apply folder_normalized_other].
  - intros Hb Hf. by rewrite normalize_miss.
Qed.

(** C10. When the bundle and the flat folder are both present, only the
    bundle is moved: the result is [.build/main.app], which now holds the
    bundle's tree, the bundle's old place is empty, and the flat folder
    [.build/captain_cmd] and everything below it are as they were. *)
Theorem normalize_prefers_bundle (w : world) (Hwf : wf (fs w))
    (Hbundle : exists_ (fs w) PyInstaller.app_bundle_src = true)
    (Hfolder : exists_ (fs w) PyInstaller.folder_src = true) :
  let r := PyInstaller.normalize_output_directory w in
  r.1 = Ret (Some PyInstaller.app_target)
  ∧ (∀ q, fs r.2 !! (PyInstaller.folder_src ++ q)
          = fs w !! (PyInstaller.folder_src ++ q))
  ∧ exists_ (fs r.2) PyInstaller.folder_src = true
  ∧ (∀ q, fs r.2 !! (PyInstaller.app_target ++ q)
          = fs w !! (PyInstaller.app_bundle_src ++ q))
  ∧ (∀ q, fs r.2 !! (PyInstaller.app_bundle_src ++ q) = None)
  ∧ (∀ q, fs r.2 !! (PyInstaller.folder_target ++ q)
          = fs w !! (PyInstaller.folder_target ++ q)).
Proof.
  cbn zeta. rewrite normalize_bundle by done. cbn [fst snd fs].
  assert (Hsame : ∀ q, bundle_normalized (fs w) !! (PyInstaller.folder_src ++ q)
                       = fs w !! (PyInstaller.folder_src ++ q)).
  { intros q. apply bundle_normalized_other.
    - apply (sibling_not_below [".build"] "main.app" "captain_cmd"). done.
    - apply (sibling_not_below [".build"] "captain_cmd.app" "captain_cmd"). done. }
  split; [done|]. split; [done|]. split.
  { unfold exists_ in *. rewrite stat_lookup in * by done.
    specialize (Hsame []). rewrite app_nil_r in Hsame. by rewrite Hsame. }
  split; [apply bundle_normalized_target|].
  split; [apply bundle_normalized_source|].
  intros q. apply bundle_normalized_other.
  - apply (sibling_not_below [".build"] "main.app" "main.dist"). done.
  - apply (sibling_not_below [".build"] "captain_cmd.app" "main.dist"). done.
Qed.

(** * Frame rules *)

Section Respects.
Variable R : relation world.
Context `{!Reflexive R, !Transitive R}.

Lemma respects_ret {A} (a : A) : respects R (mret a).
Proof. intros w. reflexivity. Qed.

Lemma respects_raise {A} e : respects R (@raise A e).
Proof. intros w. reflexivity. Qed.

Lemma respects_sys_exit {A} c : respects R (@sys_exit A c).
Proof. intros w. reflexivity. Qed.

Lemma respects_query {A} (q : filesystem → A) : respects R (query q).
Proof. intros w. reflexivity. Qed.

Lemma respects_import E m : respects R (import E m).
Proof. intros w. unfold import. destruct (importable E m); reflexivity. Qed.

Lemma respects_bind {A B} (m : M A) (k : A → M B) :
  respects R m → (∀ a, respects R (k a)) → respects R (m ≫= k).
Proof.
  intros Hm Hk w. unfold mbind, M_bind. specialize (Hm w).
  destruct (m w) as [[a|e|c] w']; cbn in *; [|done..].
  etrans; [done|apply Hk].
Qed.

Lemma respects_try_except {A} (m : M A) caught handler :
  respects R m → (∀ e, respects R (handler e)) →
  respects R (try_except m caught handler).
Proof.
  intros Hm Hh w. unfold try_except. specialize (Hm w).
  destruct (m w) as [[a|e|c] w']; cbn in *; [done| |done].
  destruct (caught e); [|done]. etrans; [done|apply Hh].
Qed.

Lemma respects_for_each {A} (l : list A) body :
  (∀ x, respects R (body x)) → respects R (for_each l body).
Proof.
  intros Hbody. induction l as [|x l IH]; [apply respects_ret|].
  apply respects_bind; [apply Hbody|done].
Qed.

Lemma respects_lift op :
  (∀ w f, op (fs w) = inr f → R w (World f (out w) (calls w) (stages w))) →
  respects R (lift op).
Proof.
  intros Hop w. unfold lift. destruct (op (fs w)) eqn:Hf; [reflexivity|].
  by apply Hop.
Qed.
End Respects.

#[global] Instance same_stages_refl : Reflexive same_stages.
Proof. by intros w. Qed.
#[global] Instance same_stages_trans : Transitive same_stages.
Proof. unfold same_stages. intros w1 w2 w3 H1 H2. congruence. Qed.
#[global] Instance same_at_refl k : Reflexive (same_at k).
Proof. by intros w. Qed.
#[global] Instance same_at_trans k : Transitive (same_at k).
Proof. unfold same_at. intros w1 w2 w3 H1 H2. congruence. Qed.

Section Quiet.
Variable E : environment.

Lemma lift_same_stages op : respects same_stages (lift op).
Proof. apply respects_lift; [apply _|]. by intros w f _. Qed.

Lemma check_call_same_stages cmd : respects same_stages (check_call E cmd).
Proof.
  intros w. unfold check_call. destruct (spawn E cmd (fs w)) as [rc f].
  by destruct (rc =? 0)%Z.
Qed.
End Quiet.

(** Decomposes a frame goal along the structure of the program. *)
Ltac frame_step :=
  lazymatch goal with
  | |- Reflexive _ => apply _
  | |- Transitive _ => apply _
  | |- respects _ (mbind _ _) => apply respects_bind; [idtac ..|intros ?]
  | |- respects _ (try_except _ _ _) => apply respects_try_except; [idtac ..|intros ?]
  | |- respects _ (for_each _ _) => apply respects_for_each; [idtac ..|intros ?]
  | |- respects _ (mret _) => apply respects_ret
  | |- respects _ (sys_exit _) => apply respects_sys_exit
  | |- respects _ (raise _) => apply respects_raise
  | |- respects _ (query _) => apply respects_query
  | |- respects _ (import _ _) => apply respects_import
  | |- respects _ (print _) => by intros ?
  | |- respects same_stages (lift _) => apply lift_same_stages
  | |- respects same_stages (check_call _ _) => apply check_call_same_stages
  | |- respects (same_at _) (enter _) => by intros ?
  | |- respects _ (match ?b with _ => _ end) => destruct b
  end.
Ltac frame := repeat frame_step.

(** * The order of the components *)

Section Emits.
Lemma take_min_length {A} (l : list A) n : take (n `min` length l) l = take n l.
Proof.
  destruct (decide (n ≤ length l)%nat) as [Hle|Hgt]; [by rewrite Nat.min_l|].
  rewrite Nat.min_r by lia. by rewrite !take_ge by lia.
Qed.

Lemma emits_quiet {A} (m : M A) : respects same_stages m → emits m [].
Proof.
  intros Hm w. specialize (Hm w). unfold same_stages in Hm. rewrite Hm.
  split; [exists 0|intros _]; by rewrite app_nil_r.
Qed.

Lemma emits_bind {A B} (m : M A) (k : A → M B) L1 L2 :
  emits m L1 → (∀ a, emits (k a) L2) → emits (m ≫= k) (L1 ++ L2).
Proof.
  intros Hm Hk w. unfold mbind, M_bind.
  destruct (Hm w) as [[n Hn] Hfull]. destruct (m w) as [[a|e|c] w'] eqn:Hmw; cbn in *.
  - destruct (Hk a w') as [[n2 Hn2] Hfull2].
    specialize (Hfull eq_refl). split.
    + exists (length L1 + n2). rewrite Hn2, Hfull.
      by rewrite take_app_add, app_assoc.
    + intros Hr. by rewrite (Hfull2 Hr), Hfull, app_assoc.
  - split; [|done]. exists (n `min` length L1). rewrite Hn. f_equal.
    by rewrite take_app_le, take_min_length by lia.
  - split; [|done]. exists (n `min` length L1). rewrite Hn. f_equal.
    by rewrite take_app_le, take_min_length by lia.
Qed.

Lemma emits_enter {A} s (k : M A) L : emits k L → emits (enter s ;; k) (s :: L).
Proof.
  intros Hk. apply (emits_bind (enter s) (fun _ => k) [s] L); [|done].
  intros w. split; [by exists 1|done].
Qed.

Lemma emits_after_quiet {A B} (m : M A) (k : A → M B) L :
  respects same_stages m → (∀ a, emits (k a) L) → emits (m ≫= k) L.
Proof.
  intros Hm Hk. apply (emits_bind m k [] L); [|done]. by apply emits_quiet.
Qed.
End Emits.

Ltac emits_quiet_steps :=
  repeat (apply emits_after_quiet; [solve [frame]|intros ?]).

Section Stages.
Variable E : environment.

Lemma pyinstaller_ensure_emits :
  emits (PyInstaller.ensure_pyinstaller_installed E) [Ensurer].
Proof.
  unfold PyInstaller.ensure_pyinstaller_installed.
  apply emits_enter, emits_quiet. frame.
Qed.

Lemma pyinstaller_clean_emits : emits PyInstaller.clean [Cleaner].
Proof.
  unfold PyInstaller.clean. apply emits_enter, emits_quiet. frame.
  unfold PyInstaller.clean_path. frame.
Qed.

Lemma normalize_emits : emits PyInstaller.normalize_output_directory [Normalizer].
Proof.
  unfold PyInstaller.normalize_output_directory, PyInstaller._replace_path.
  apply emits_enter, emits_quiet. frame.
Qed.

Lemma pyinstaller_build_emits : emits (PyInstaller.build E) [Invoker; Normalizer].
Proof.
  unfold PyInstaller.build. apply emits_enter. emits_quiet_steps.
  apply (emits_bind _ _ [Normalizer] []); [apply normalize_emits|intros p].
  apply emits_quiet. frame.
Qed.

Lemma pyinstaller_post_build_emits d : emits (PyInstaller.post_build d) [Seeder].
Proof. unfold PyInstaller.post_build. apply emits_enter, emits_quiet. frame. Qed.

Lemma pyinstaller_main_emits :
  emits (PyInstaller.main E) [Ensurer; Cleaner; Invoker; Normalizer; Seeder].
Proof.
  unfold PyInstaller.main.
  apply (emits_bind _ _ [Ensurer] [Cleaner; Invoker; Normalizer; Seeder]);
    [apply pyinstaller_ensure_emits|intros _].
  apply (emits_bind _ _ [Cleaner] [Invoker; Normalizer; Seeder]);
    [apply pyinstaller_clean_emits|intros _].
  apply (emits_bind _ _ [Invoker; Normalizer] [Seeder]);
    [apply pyinstaller_build_emits|intros d].
  apply pyinstaller_post_build_emits.
Qed.

Lemma nuitka_clean_emits : emits Nuitka.clean [Cleaner].
Proof.
  unfold Nuitka.clean. apply emits_enter, emits_quiet. frame.
  unfold Nuitka.clean_path. frame.
Qed.

Lemma nuitka_build_emits : emits (Nuitka.build E) [Invoker].
Proof. unfold Nuitka.build. apply emits_enter, emits_quiet. frame. Qed.

Lemma nuitka_post_build_emits : emits Nuitka.post_build [Seeder].
Proof. unfold Nuitka.post_build. apply emits_enter, emits_quiet. frame. Qed.

Lemma nuitka_main_emits :
  emits (Nuitka.main E) [Ensurer; Cleaner; Invoker; Seeder].
Proof.
  unfold Nuitka.main. apply emits_enter. emits_quiet_steps.
  apply (emits_bind _ _ [Cleaner] [Invoker; Seeder]);
    [apply nuitka_clean_emits|intros _].
  apply (emits_bind _ _ [Invoker] [Seeder]);
    [apply nuitka_build_emits|intros _].
  apply nuitka_post_build_emits.
Qed.
End Stages.

(** * Runs *)

(** Splits on how each step of a sequence ends. *)
Ltac bind_cases :=
  repeat match goal with
  | |- context [match ?m ?w with _ => _ end] =>
      lazymatch type of (m w) with
      | (outcome _ * world)%type => destruct (m w) as [[?|?|?] ?]
      end
  end.

Section Runs.
Variable E : environment.
Implicit Types (w : world).

Lemma check_call_spec cmd w :
  check_call E cmd w =
    (if ((spawn E cmd (fs w)).1 =? 0)%Z then Ret tt
     else Raise (CalledProcessError (spawn E cmd (fs w)).1 cmd),
     spawned E cmd w).
Proof.
  unfold check_call, spawned. destruct (spawn E cmd (fs w)) as [rc f]. cbn.
  by destruct (rc =? 0)%Z.
Qed.

Lemma pyinstaller_main_split w :
  PyInstaller.main E w = (pyinstaller_reach_backend E ;; pyinstaller_finish E) w.
Proof.
  unfold PyInstaller.main, PyInstaller.build, pyinstaller_reach_backend,
    pyinstaller_finish, pyinstaller_normalize_and_seed.
  unfold mbind, M_bind, mret, M_ret. bind_cases; reflexivity.
Qed.

Lemma nuitka_main_split w :
  Nuitka.main E w = (nuitka_reach_backend E ;; nuitka_finish E) w.
Proof.
  unfold Nuitka.main, Nuitka.build, nuitka_reach_backend, nuitka_finish.
  unfold mbind, M_bind, mret, M_ret. bind_cases; reflexivity.
Qed.
End Runs.

(** C3, as the scripts have it.  In every run the components are entered in
    the order Dependency Ensurer, Workspace Cleaner, Backend Invoker, Output
    Normalizer, Config Seeder (PyInstaller script), respectively Dependency
    Ensurer, Workspace Cleaner, Backend Invoker, Config Seeder (Nuitka
    script, which has no normalizer): the components a run has entered are
    an initial part of that sequence, so none is entered twice or after a
    later one, and they are the whole sequence when the run returns. *)
Theorem stages_in_order (E : environment) :
  emits (PyInstaller.main E) [Ensurer; Cleaner; Invoker; Normalizer; Seeder]
  ∧ emits (Nuitka.main E) [Ensurer; Cleaner; Invoker; Seeder].
Proof. split; [apply pyinstaller_main_emits|apply nuitka_main_emits]. Qed.

(** C3 as stated fails: a complete run of either script enters the
    Dependency Ensurer before the Workspace Cleaner, and the Nuitka script
    never enters an Output Normalizer. *)
Lemma stages_in_order_counterexample :
  let claimed := [Cleaner; Ensurer; Invoker; Normalizer; Seeder] in
  let p := PyInstaller.main (Sample.env 0 "captain_cmd") (Sample.start Sample.checkout) in
  let n := Nuitka.main (Sample.env 0 "main.dist") (Sample.start Sample.checkout) in
  (p.1 = Ret tt
   ∧ stages p.2 = [Ensurer; Cleaner; Invoker; Normalizer; Seeder]
   ∧ stages p.2 ≠ claimed)
  ∧ (n.1 = Ret tt
     ∧ stages n.2 = [Ensurer; Cleaner; Invoker; Seeder]
     ∧ stages n.2 ≠ claimed).
Proof. vm_compute. repeat split; discriminate. Qed.

(** * The config seeder *)

Section Seeder.
Implicit Types (f : filesystem) (p d : path) (w : world).

Lemma makedirs_from_existing f pre rest :
  wf f → pre ++ rest ≠ [] → isdir f (pre ++ rest) = true →
  makedirs_from pre rest f = inr f.
Proof.
  intros Hwf. revert pre. induction rest as [|x rest IH]; intros pre Hne Hd; [done|].
  cbn [makedirs_from].
  assert (Hx : f !! (pre ++ [x]) = Some Dir).
  { apply isdir_lookup; [by destruct pre|].
    destruct rest as [|y rest']; [done|].
    apply (wf_ancestor f (pre ++ [x]) (y :: rest')); [done| |done].
    rewrite <- app_assoc. exists Dir. by apply isdir_lookup. }
  rewrite Hx. apply IH; rewrite <- app_assoc; done.
Qed.

Lemma makedirs_existing f p :
  wf f → isdir f p = true → makedirs p f = inr f.
Proof.
  intros Hwf Hd. destruct p as [|x p]; [done|].
  by apply makedirs_from_existing.
Qed.

Lemma copy2_file f src dst data :
  stat f src = Some (File data) → src ≠ dst →
  isdir f (dirname dst) = true → isdir f dst = false →
  copy2 src dst f = inr (<[dst := File data]> f).
Proof.
  intros Hsrc Hne Hpar Hdst. unfold copy2. rewrite Hdst, Hsrc.
  rewrite bool_decide_eq_false_2 by done. by rewrite Hpar, Hdst.
Qed.

Lemma template_not_config p : config_template ≠ p ++ ["config.toml"].
Proof.
  intros Heq. apply (f_equal last) in Heq. by rewrite last_snoc in Heq.
Qed.



Lemma pyinstaller_post_build_seeds d data w :
  let target_dir := pyinstaller_seed_dir (fs w) d in
  let target_config := join target_dir ["config.toml"] in
  wf (fs w) → truthy (Some d) = true → exists_ (fs w) d = true →
  stat (fs w) config_template = Some (File data) →
  isdir (fs w) target_dir = true → isdir (fs w) target_config = false →
  PyInstaller.post_build (Some d) w =
    (Ret tt,
     World (<[target_config := File data]> (fs w))
       (out w ++ ["[*] Running post-build tasks..."]
          ++ ["    Copied template 'config.example.toml' to '"
              +:+ path_str target_config +:+ "'"]
          ++ [String "010"%char "[DONE] All done! Build output is in '"
              +:+ path_str d +:+ "'."])
       (calls w) (stages w ++ [Seeder])).
Proof.
  intros td tc Hwf Ht Hd Hc Htd Htc. unfold PyInstaller.post_build.
  rewrite bind_enter, bind_query. cbn [fs default id]. rewrite Ht, Hd. cbn [negb orb].
  rewrite bind_print, bind_query. cbn [fs]. unfold exists_ at 1. rewrite Hc. cbn [negb].
  rewrite bind_query. cbn [fs]. fold (pyinstaller_seed_dir (fs w) d). fold td.
  erewrite bind_lift_ok; [|by apply makedirs_existing]. cbn [fs out calls stages].
  erewrite bind_lift_ok; cycle 1.
  { cbn [fs]. apply copy2_file; [done|apply template_not_config| |done].
    unfold join. by rewrite dirname_snoc. }
  unfold print, mbind, M_bind. cbn. by rewrite <- !app_assoc.
Qed.
(** The Nuitka script's [post_build] never raises. *)
Lemma nuitka_post_build_spec w :
  Nuitka.post_build w =
    (Ret tt, World (nuitka_post_build_fs (fs w))
               (out w ++ nuitka_post_build_out (fs w))
               (calls w) (stages w ++ [Seeder])).
Proof.
  unfold Nuitka.post_build, nuitka_post_build_fs, nuitka_post_build_out,
    nuitka_seed_dir.
  rewrite bind_enter, bind_print, bind_query. cbn [fs out calls stages].
  destruct (exists_ (fs w) Nuitka.main_dist) eqn:Hm; cbn [negb];
    [rewrite bind_ret|rewrite bind_print]; rewrite bind_query;
    cbn [fs out calls stages];
    (destruct (exists_ (fs w) config_template) eqn:Hc;
     [unfold try_except, lift, mbind, M_bind, print; cbn [fs out calls stages];
      destruct (copy2 _ _ (fs w)) as [e|f'] eqn:Hcp; cbn [fs out calls stages]
     |unfold mbind, M_bind, print; cbn [fs out calls stages]]);
    by rewrite <- ?app_assoc.
Qed.
End Seeder.

(** * After the backend has ended *)

Section Finish.
Variable E : environment.
Implicit Types (w : world).

Lemma pyinstaller_main_from w w1 :
  pyinstaller_reach_backend E w = (Ret tt, w1) →
  PyInstaller.main E w = pyinstaller_finish E w1.
Proof.
  intros H. rewrite pyinstaller_main_split. unfold mbind, M_bind. by rewrite H.
Qed.

Lemma nuitka_main_from w w1 :
  nuitka_reach_backend E w = (Ret tt, w1) →
  Nuitka.main E w = nuitka_finish E w1.
Proof.
  intros H. rewrite nuitka_main_split. unfold mbind, M_bind. by rewrite H.
Qed.

Lemma pyinstaller_finish_failed w :
  (spawn E (PyInstaller.build_cmd E) (fs w)).1 ≠ 0%Z →
  pyinstaller_finish E w =
    (Exit 1, printed "[ERROR] PyInstaller build failed."
               (spawned E (PyInstaller.build_cmd E) w)).
Proof.
  intros Hrc. unfold pyinstaller_finish, mbind, M_bind, try_except.
  rewrite check_call_spec. apply Z.eqb_neq in Hrc. by rewrite Hrc.
Qed.

Lemma pyinstaller_finish_ok w :
  (spawn E (PyInstaller.build_cmd E) (fs w)).1 = 0%Z →
  pyinstaller_finish E w =
    pyinstaller_normalize_and_seed (spawned E (PyInstaller.build_cmd E) w).
Proof.
  intros Hrc. unfold pyinstaller_finish, mbind, M_bind, try_except.
  rewrite check_call_spec. by rewrite Hrc.
Qed.

Lemma nuitka_finish_failed w :
  (spawn E (Nuitka.build_cmd E) (fs w)).1 ≠ 0%Z →
  nuitka_finish E w =
    (Exit 1, printed "[ERROR] Build failed!" (spawned E (Nuitka.build_cmd E) w)).
Proof.
  intros Hrc. unfold nuitka_finish, mbind, M_bind, try_except.
  rewrite check_call_spec. apply Z.eqb_neq in Hrc. by rewrite Hrc.
Qed.

Lemma nuitka_finish_ok w :
  (spawn E (Nuitka.build_cmd E) (fs w)).1 = 0%Z →
  nuitka_finish E w =
    Nuitka.post_build (printed "[SUCCESS] Build finished successfully!"
                         (spawned E (Nuitka.build_cmd E) w)).
Proof.
  intros Hrc. unfold nuitka_finish, mbind, M_bind, try_except.
  rewrite check_call_spec. by rewrite Hrc.
Qed.

Lemma pyinstaller_reach_emits :
  emits (pyinstaller_reach_backend E) [Ensurer; Cleaner; Invoker].
Proof.
  unfold pyinstaller_reach_backend.
  apply (emits_bind _ _ [Ensurer] [Cleaner; Invoker]);
    [apply pyinstaller_ensure_emits|intros _].
  apply (emits_bind _ _ [Cleaner] [Invoker]);
    [apply pyinstaller_clean_emits|intros _].
  apply emits_enter, emits_quiet. frame.
Qed.

Lemma nuitka_reach_emits :
  emits (nuitka_reach_backend E) [Ensurer; Cleaner; Invoker].
Proof.
  unfold nuitka_reach_backend. apply emits_enter. emits_quiet_steps.
  apply (emits_bind _ _ [Cleaner] [Invoker]);
    [apply nuitka_clean_emits|intros _].
  apply emits_enter, emits_quiet. frame.
Qed.

Lemma pyinstaller_reach_stages w w1 :
  pyinstaller_reach_backend E w = (Ret tt, w1) →
  stages w1 = stages w ++ [Ensurer; Cleaner; Invoker].
Proof.
  intros H. destruct (pyinstaller_reach_emits w) as [_ Hfull].
  rewrite H in Hfull. by apply Hfull.
Qed.

Lemma nuitka_reach_stages w w1 :
  nuitka_reach_backend E w = (Ret tt, w1) →
  stages w1 = stages w ++ [Ensurer; Cleaner; Invoker].
Proof.
  intros H. destruct (nuitka_reach_emits w) as [_ Hfull].
  rewrite H in Hfull. by apply Hfull.
Qed.
End Finish.

(** C2. In either script, once the run has reached the backend and the
    backend ends with a non-zero status, the script prints its error line and
    the process ends with status 1.  The world it leaves is the one the
    backend left, with that one line added: the components entered are the
    Dependency Ensurer, the Cleaner and the Backend Invoker, so neither the
    Output Normalizer nor the Config Seeder ran. *)
Theorem backend_failure_is_fatal (E : environment) (w w1 : world) :
  (pyinstaller_reach_backend E w = (Ret tt, w1) →
   (spawn E (PyInstaller.build_cmd E) (fs w1)).1 ≠ 0%Z →
   let r := PyInstaller.main E w in
   exit_status r.1 = 1%Z
   ∧ r.2 = printed "[ERROR] PyInstaller build failed."
             (spawned E (PyInstaller.build_cmd E) w1)
   ∧ last (out r.2) = Some "[ERROR] PyInstaller build failed."
   ∧ fs r.2 = (spawn E (PyInstaller.build_cmd E) (fs w1)).2
   ∧ stages r.2 = stages w ++ [Ensurer; Cleaner; Invoker])
  ∧ (nuitka_reach_backend E w = (Ret tt, w1) →
     (spawn E (Nuitka.build_cmd E) (fs w1)).1 ≠ 0%Z →
     let r := Nuitka.main E w in
     exit_status r.1 = 1%Z
     ∧ r.2 = printed "[ERROR] Build failed!" (spawned E (Nuitka.build_cmd E) w1)
     ∧ last (out r.2) = Some "[ERROR] Build failed!"
     ∧ fs r.2 = (spawn E (Nuitka.build_cmd E) (fs w1)).2
     ∧ stages r.2 = stages w ++ [Ensurer; Cleaner; Invoker]).
Proof.
  split; intros Hreach Hrc; cbn zeta.
  - rewrite (pyinstaller_main_from E w w1 Hreach), pyinstaller_finish_failed by done.
    cbn [fst snd exit_status printed spawned fs out stages].
    rewrite last_snoc. by rewrite (pyinstaller_reach_stages E w w1 Hreach).
  - rewrite (nuitka_main_from E w w1 Hreach), nuitka_finish_failed by done.
    cbn [fst snd exit_status printed spawned fs out stages].
    rewrite last_snoc. by rewrite (nuitka_reach_stages E w w1 Hreach).
Qed.

Section SeedAfterNormalize.
Implicit Types (f : filesystem) (w : world).

Lemma bundle_normalized_exists f :
  exists_ (bundle_normalized f) PyInstaller.app_target
  = exists_ f PyInstaller.app_bundle_src.
Proof.
  unfold exists_. rewrite !stat_lookup by done.
  by rewrite <- (app_nil_r PyInstaller.app_target), bundle_normalized_target, app_nil_r.
Qed.

Lemma folder_normalized_exists f :
  exists_ (folder_normalized f) PyInstaller.folder_target
  = exists_ f PyInstaller.folder_src.
Proof.
  unfold exists_. rewrite !stat_lookup by done.
  by rewrite <- (app_nil_r PyInstaller.folder_target), folder_normalized_target, app_nil_r.
Qed.

Lemma bundle_normalized_template f :
  stat (bundle_normalized f) config_template = stat f config_template.
Proof.
  rewrite !stat_lookup by done. apply bundle_normalized_other;
    intros [t Ht]; discriminate.
Qed.

Lemma folder_normalized_template f :
  stat (folder_normalized f) config_template = stat f config_template.
Proof.
  rewrite !stat_lookup by done. apply folder_normalized_other;
    intros [t Ht]; discriminate.
Qed.



End SeedAfterNormalize.




Section SeedLocation.
Implicit Types (f : filesystem) (d : path) (w : world).

Lemma isdir_exists f d : isdir f d = true → exists_ f d = true.
Proof. unfold isdir, exists_. by destruct (stat f d) as [[]|]. Qed.

Lemma endswith_truthy d (suf : string) :
  suf ≠ "" → endswith (path_str d) suf = true → truthy (Some d) = true.
Proof.
  intros Hsuf He. cbn [truthy]. destruct (String.eqb_spec (path_str d) "") as [Heq|]; [|done].
  rewrite Heq in He. unfold endswith in He. cbn in He.
  destruct suf; [done|]. done.
Qed.

Lemma bundle_dir_exists f d :
  wf f → isdir f (join d ["Contents"; "MacOS"]) = true → exists_ f d = true.
Proof.
  intros Hwf Hd. apply isdir_exists.
  apply (wf_ancestor f d ["Contents"; "MacOS"]); [done| |done].
  exists Dir. apply isdir_lookup; [by destruct d|done].
Qed.
End SeedLocation.

(** C4.  Where the two seeders put the configuration, given a template
    that is a regular file and no directory named [config.toml] in the way.
    The PyInstaller script does what is claimed: for a platform bundle, an
    artifact whose path ends in [.app] and that holds the directory
    [Contents/MacOS], the configuration goes into [Contents/MacOS]; for a
    flat folder it goes to the top of the folder.  The Nuitka script does so
    for the flat folder [.build/main.dist] only.  It never looks for a
    bundle: when the build has left the bundle [.build/main.app], which its
    own [--macos-create-app-bundle] asks for, and no [.build/main.dist], it
    reports a missing dist directory and puts the configuration into
    [.build], outside the bundle; [Contents/MacOS] gets nothing. *)
Theorem config_seed_location (w : world) (data : string)
    (Hwf : wf (fs w))
    (Htemplate : stat (fs w) config_template = Some (File data)) :
  (∀ d,
     let macos_dir := join d ["Contents"; "MacOS"] in
     let r := PyInstaller.post_build (Some d) w in
     (endswith (path_str d) ".app" = true →
      isdir (fs w) macos_dir = true →
      isdir (fs w) (join macos_dir ["config.toml"]) = false →
      r.1 = Ret tt
      ∧ fs r.2 = <[ join macos_dir ["config.toml"] := File data ]> (fs w))
     ∧ (endswith (path_str d) ".app" = false →
        truthy (Some d) = true →
        isdir (fs w) d = true →
        isdir (fs w) (join d ["config.toml"]) = false →
        r.1 = Ret tt
        ∧ fs r.2 = <[ join d ["config.toml"] := File data ]> (fs w)))
  ∧ (let r := Nuitka.post_build w in
     let macos_dir := [".build"; "main.app"; "Contents"; "MacOS"] in
     (isdir (fs w) Nuitka.main_dist = true →
      isdir (fs w) (join Nuitka.main_dist ["config.toml"]) = false →
      r.1 = Ret tt
      ∧ fs r.2 = <[ join Nuitka.main_dist ["config.toml"] := File data ]> (fs w))
     ∧ (isdir (fs w) macos_dir = true →
        exists_ (fs w) Nuitka.main_dist = false →
        isdir (fs w) [".build"; "config.toml"] = false →
        r.1 = Ret tt
        ∧ fs r.2 = <[ [".build"; "config.toml"] := File data ]> (fs w)
        ∧ fs r.2 !! join macos_dir ["config.toml"]
          = fs w !! join macos_dir ["config.toml"]
        ∧ "    [WARNING] Dist directory .build/main.dist not found. Did the build fail or using onefile mode?"
            ∈ out r.2)).
Proof.
  split; [intros d; cbn zeta; split|cbn zeta; split].
  - intros He Hm Hc.
    rewrite (pyinstaller_post_build_seeds d data); try done.
    + unfold pyinstaller_seed_dir. by rewrite He, (isdir_exists _ _ Hm).
    + by apply (endswith_truthy d ".app").
    + by apply bundle_dir_exists.
    + unfold pyinstaller_seed_dir. by rewrite He, (isdir_exists _ _ Hm).
    + unfold pyinstaller_seed_dir. by rewrite He, (isdir_exists _ _ Hm).
  - intros He Ht Hd Hc.
    rewrite (pyinstaller_post_build_seeds d data); try done.
    + unfold pyinstaller_seed_dir. by rewrite He.
    + by apply isdir_exists.
    + unfold pyinstaller_seed_dir. by rewrite He.
    + unfold pyinstaller_seed_dir. by rewrite He.
  - intros Hm Hc. rewrite nuitka_post_build_spec. cbn [fst snd fs].
    unfold nuitka_post_build_fs, nuitka_seed_dir, exists_ at 1.
    rewrite Htemplate, (isdir_exists _ _ Hm).
    by rewrite (copy2_file _ _ _ data).
  - intros Hb Hm Hc.
    assert (Hd : isdir (fs w) [".build"] = true).
    { apply (wf_ancestor (fs w) [".build"] ["main.app"; "Contents"; "MacOS"]);
        [done| |done].
      exists Dir. by apply isdir_lookup. }
    assert (Hex : exists_ (fs w) config_template = true)
      by (unfold exists_; by rewrite Htemplate).
    rewrite nuitka_post_build_spec. cbn [fst snd fs out].
    unfold nuitka_post_build_fs, nuitka_post_build_out, nuitka_seed_dir.
    rewrite Hex, Hm.
    rewrite (copy2_file _ _ _ data) by done.
    split; [done|]. split; [done|]. split; [by rewrite lookup_insert_ne|].
    set_solver.
Qed.

Section Ensurer.
Variable E : environment.
Implicit Types (w : world).

Lemma pyinstaller_ensure_spec w :
  PyInstaller.ensure_pyinstaller_installed E w =
    if importable E "PyInstaller" then (Ret tt, entered Ensurer w)
    else check_call E (PyInstaller.pip_cmd E)
           (printed "[*] PyInstaller not found. Installing..." (entered Ensurer w)).
Proof.
  unfold PyInstaller.ensure_pyinstaller_installed. rewrite bind_enter.
  unfold try_except, import. destruct (importable E "PyInstaller"); [done|].
  by rewrite bind_print.
Qed.

Lemma nuitka_ensure_spec {A} (k : M A) w :
  (try_except (import E "nuitka")
     (fun e => match e with ImportError _ => true | _ => false end)
     (fun _ => print "[*] Nuitka not installed. Installing..." ;;
               check_call E (Nuitka.pip_cmd E)) ;; k) w =
    if importable E "nuitka" then k w
    else match check_call E (Nuitka.pip_cmd E)
                 (printed "[*] Nuitka not installed. Installing..." w) with
         | (Ret _, w') => k w'
         | (Raise e, w') => (Raise e, w')
         | (Exit c, w') => (Exit c, w')
         end.
Proof.
  unfold mbind at 1, M_bind at 1.
  unfold try_except, import. destruct (importable E "nuitka"); [done|].
  by rewrite bind_print.
Qed.
End Ensurer.

(** C8. Each script first tries to import its backend.  If the import
    succeeds no installer is spawned and the run goes on to the cleaner.
    Only if it fails is [pip install] spawned, and the run goes on in the
    world the installer left when it has ended; if the installer ends with a
    non-zero status, [CalledProcessError] is not caught anywhere: the run
    ends with it (exit status 1), having entered only the Dependency Ensurer
    and spawned only the installer, so no build was attempted. *)
Theorem ensurer_installs_on_demand (E : environment) (w : world) :
  let begun := entered Ensurer w in
  (let installing := printed "[*] PyInstaller not found. Installing..." begun in
   let rc := (spawn E (PyInstaller.pip_cmd E) (fs w)).1 in
   let rest := PyInstaller.clean ;; (PyInstaller.build E ≫= PyInstaller.post_build) in
   (importable E "PyInstaller" = true →
    PyInstaller.ensure_pyinstaller_installed E w = (Ret tt, begun)
    ∧ PyInstaller.main E w = rest begun)
   ∧ (importable E "PyInstaller" = false → rc = 0%Z →
      PyInstaller.ensure_pyinstaller_installed E w
        = (Ret tt, spawned E (PyInstaller.pip_cmd E) installing)
      ∧ PyInstaller.main E w = rest (spawned E (PyInstaller.pip_cmd E) installing))
   ∧ (importable E "PyInstaller" = false → rc ≠ 0%Z →
      let r := PyInstaller.main E w in
      r = (Raise (CalledProcessError rc (PyInstaller.pip_cmd E)),
           spawned E (PyInstaller.pip_cmd E) installing)
      ∧ exit_status r.1 = 1%Z
      ∧ calls r.2 = calls w ++ [PyInstaller.pip_cmd E]
      ∧ stages r.2 = stages w ++ [Ensurer]))
  ∧ (let installing := printed "[*] Nuitka not installed. Installing..." begun in
     let rc := (spawn E (Nuitka.pip_cmd E) (fs w)).1 in
     let rest := Nuitka.clean ;; Nuitka.build E ;; Nuitka.post_build in
     (importable E "nuitka" = true → Nuitka.main E w = rest begun)
     ∧ (importable E "nuitka" = false → rc = 0%Z →
        Nuitka.main E w = rest (spawned E (Nuitka.pip_cmd E) installing))
     ∧ (importable E "nuitka" = false → rc ≠ 0%Z →
        let r := Nuitka.main E w in
        r = (Raise (CalledProcessError rc (Nuitka.pip_cmd E)),
             spawned E (Nuitka.pip_cmd E) installing)
        ∧ exit_status r.1 = 1%Z
        ∧ calls r.2 = calls w ++ [Nuitka.pip_cmd E]
        ∧ stages r.2 = stages w ++ [Ensurer])).
Proof.
  cbn zeta. split; (split; [|split]).
  - intros Hi. unfold PyInstaller.main. unfold mbind at 1, M_bind at 1.
    by rewrite pyinstaller_ensure_spec, Hi.
  - intros Hi Hrc. unfold PyInstaller.main. unfold mbind at 1, M_bind at 1.
    rewrite pyinstaller_ensure_spec, Hi, check_call_spec.
    cbn [fs printed entered]. by rewrite Hrc.
  - intros Hi Hrc. apply Z.eqb_neq in Hrc.
    assert (PyInstaller.main E w =
              (Raise (CalledProcessError (spawn E (PyInstaller.pip_cmd E) (fs w)).1
                        (PyInstaller.pip_cmd E)),
               spawned E (PyInstaller.pip_cmd E)
                 (printed "[*] PyInstaller not found. Installing..."
                    (entered Ensurer w)))) as ->; [|done].
    unfold PyInstaller.main. unfold mbind at 1, M_bind at 1.
    rewrite pyinstaller_ensure_spec, Hi, check_call_spec.
    cbn [fs printed entered]. by rewrite Hrc.
  - intros Hi. unfold Nuitka.main. rewrite bind_enter.
    by rewrite (nuitka_ensure_spec E), Hi.
  - intros Hi Hrc. unfold Nuitka.main. rewrite bind_enter.
    rewrite (nuitka_ensure_spec E), Hi, check_call_spec.
    cbn [fs printed entered]. by rewrite Hrc.
  - intros Hi Hrc. apply Z.eqb_neq in Hrc.
    assert (Nuitka.main E w =
              (Raise (CalledProcessError (spawn E (Nuitka.pip_cmd E) (fs w)).1
                        (Nuitka.pip_cmd E)),
               spawned E (Nuitka.pip_cmd E)
                 (printed "[*] Nuitka not installed. Installing..."
                    (entered Ensurer w)))) as ->; [|done].
    unfold Nuitka.main. rewrite bind_enter.
    rewrite (nuitka_ensure_spec E), Hi, check_call_spec.
    cbn [fs printed entered]. by rewrite Hrc.
Qed.

(** * The template is only read *)

Section Template.
Implicit Types (f : filesystem) (p k src dst : path) (w : world).

Lemma nuitka_clean_fs_other p f k :
  ¬ p `prefix_of` k → nuitka_clean_fs p f !! k = f !! k.
Proof.
  intros Hk. unfold nuitka_clean_fs.
  destruct (isdir f p); [by rewrite lookup_prune, decide_False|done].
Qed.

Lemma sweep_other (step : path → filesystem → filesystem) l f k :
  (∀ p g, p ∈ l → step p g !! k = g !! k) → sweep step l f !! k = f !! k.
Proof.
  revert f. induction l as [|p l IH]; intros f Hstep; [done|].
  change (sweep step (p :: l) f) with (sweep step l (step p f)).
  rewrite IH; [apply Hstep; left|]. intros q g Hq. apply Hstep. by right.
Qed.

Lemma makedirs_from_kept pre rest f f' k :
  makedirs_from pre rest f = inr f' →
  is_Some (f !! k) ∨ ¬ k `prefix_of` (pre ++ rest) →
  f' !! k = f !! k.
Proof.
  revert pre f. induction rest as [|x rest IH]; intros pre f Hm Hk; cbn in Hm.
  { by injection Hm as <-. }
  destruct (f !! (pre ++ [x])) as [[data|]|] eqn:Hp; [done| |].
  - apply (IH _ _ Hm). by rewrite <- app_assoc.
  - assert (Hne : pre ++ [x] ≠ k).
    { intros <-. destruct Hk as [[e He]|Hk]; [congruence|].
      apply Hk. exists rest. by rewrite <- app_assoc. }
    rewrite (IH _ _ Hm).
    + by apply lookup_insert_ne.
    + rewrite <- app_assoc, lookup_insert_ne by done. done.
Qed.

Lemma makedirs_kept p f f' k :
  makedirs p f = inr f' → is_Some (f !! k) ∨ ¬ k `prefix_of` p → f' !! k = f !! k.
Proof. apply makedirs_from_kept. Qed.

Lemma rename_other src dst f f' k :
  rename src dst f = inr f' →
  ¬ src `prefix_of` k → ¬ dst `prefix_of` k → f' !! k = f !! k.
Proof.
  unfold rename. intros Hr Hs Hd.
  destruct (stat f src) as [s|]; [|done].
  destruct (negb _); [done|]. destruct (bool_decide _); [done|].
  assert (f' = relocate src dst f) as ->.
  { destruct (stat f dst) as [[]|], s; congruence. }
  by rewrite lookup_relocate, !decide_False.
Qed.

Lemma move_other src dst f f' k :
  move src dst f = inr f' →
  ¬ src `prefix_of` k → ¬ dst `prefix_of` k → f' !! k = f !! k.
Proof.
  unfold move. intros Hm Hs Hd. destruct (isdir f dst).
  - destruct (exists_ _ _); [done|]. apply (rename_other _ _ _ _ _ Hm Hs).
    intros Hp. apply Hd. by eapply prefix_app_l.
  - by apply (rename_other _ _ _ _ _ Hm).
Qed.

Lemma copy2_keeps_source src dst f f' :
  copy2 src dst f = inr f' → f' !! src = f !! src.
Proof.
  unfold copy2.
  set (d := if isdir f dst then join dst (basename src) else dst). intros Hc.
  destruct (stat f src) as [[data|]|]; [|done..].
  case_bool_decide as Hsd; [done|].
  destruct (negb _); [done|]. destruct (isdir f d); [done|].
  injection Hc as <-. apply lookup_insert_ne. congruence.
Qed.
End Template.

Section TemplateKept.
Variable E : environment.
Hypothesis spawn_keeps_template :
  ∀ cmd f, (spawn E cmd f).2 !! config_template = f !! config_template.

Local Abbreviation kept := (respects (same_at config_template)).

Lemma clean_paths_beside_template :
  Forall (fun p : path => ¬ p `prefix_of` config_template) PyInstaller.clean_paths
  ∧ Forall (fun p : path => ¬ p `prefix_of` config_template) Nuitka.dirs_to_remove.
Proof. split; repeat constructor; intros [t Ht]; discriminate. Qed.

Lemma check_call_kept cmd : kept (check_call E cmd).
Proof.
  intros w. rewrite check_call_spec. cbn [snd]. apply spawn_keeps_template.
Qed.

Lemma pyinstaller_clean_kept : kept PyInstaller.clean.
Proof.
  intros w. destruct (pyinstaller_clean_spec w) as [o ->]. unfold same_at. cbn [snd fs].
  apply sweep_other. intros p g Hp. apply pyinstaller_clean_fs_other.
  pose proof (proj1 clean_paths_beside_template) as Hall.
  rewrite Forall_forall in Hall. by apply Hall.
Qed.

Lemma nuitka_clean_kept : kept Nuitka.clean.
Proof.
  intros w. destruct (nuitka_clean_spec w) as [o ->]. unfold same_at. cbn [snd fs].
  apply sweep_other. intros p g Hp. apply nuitka_clean_fs_other.
  pose proof (proj2 clean_paths_beside_template) as Hall.
  rewrite Forall_forall in Hall. by apply Hall.
Qed.

Lemma replace_path_kept (x y : string) :
  kept (PyInstaller._replace_path [x; y]).
Proof.
  intros w. rewrite replace_path_spec. unfold same_at. cbn [snd fs].
  apply pyinstaller_clean_fs_other. intros [t Ht]. discriminate.
Qed.

Lemma move_kept (x y x' y' : string) :
  kept (lift (move [x; y] [x'; y'])).
Proof.
  apply respects_lift; [apply _|]. intros w f Hm. unfold same_at. cbn [fs].
  apply (move_other _ _ _ _ _ Hm); intros [t Ht]; discriminate.
Qed.

Lemma makedirs_kept_lift (p : path) :
  ¬ config_template `prefix_of` p → kept (lift (makedirs p)).
Proof.
  intros Hp. apply respects_lift; [apply _|]. intros w f Hm. unfold same_at. cbn [fs].
  apply (makedirs_kept _ _ _ _ Hm). by right.
Qed.

Lemma normalize_kept : kept PyInstaller.normalize_output_directory.
Proof.
  unfold PyInstaller.normalize_output_directory. frame;
    try apply replace_path_kept; apply move_kept.
Qed.

Lemma pyinstaller_post_build_kept d : kept (PyInstaller.post_build d).
Proof.
  intros w. unfold PyInstaller.post_build. rewrite bind_enter, bind_query.
  destruct (_ || _); [done|]. rewrite bind_print, bind_query. cbn [fs].
  destruct (exists_ (fs w) config_template) eqn:Ht; [|done]. cbn [negb].
  rewrite bind_query. cbn [fs]. unfold same_at.
  set (td := if endswith _ _ then _ else _).
  destruct (makedirs td (fs w)) as [e|f1] eqn:Hm.
  { by erewrite bind_lift_err. }
  erewrite bind_lift_ok by done.
  assert (H1 : f1 !! config_template = fs w !! config_template).
  { apply (makedirs_kept _ _ _ _ Hm). left. unfold exists_, stat in Ht. cbn in Ht.
    destruct (fs w !! config_template); [by eexists|done]. }
  destruct (copy2 config_template (join td ["config.toml"]) f1) as [e|f2] eqn:Hc.
  { by erewrite bind_lift_err. }
  erewrite bind_lift_ok by done. unfold mbind, M_bind, print. cbn [fs snd].
  by rewrite (copy2_keeps_source _ _ _ _ Hc).
Qed.

Lemma pyinstaller_build_kept : kept (PyInstaller.build E).
Proof.
  unfold PyInstaller.build. frame;
    first [ apply makedirs_kept_lift; intros [t Ht]; discriminate
          | apply check_call_kept
          | apply normalize_kept ].
Qed.

Lemma pyinstaller_ensure_kept : kept (PyInstaller.ensure_pyinstaller_installed E).
Proof.
  unfold PyInstaller.ensure_pyinstaller_installed. frame. apply check_call_kept.
Qed.

Lemma pyinstaller_main_kept : kept (PyInstaller.main E).
Proof.
  unfold PyInstaller.main. frame;
    first [ apply pyinstaller_ensure_kept | apply pyinstaller_clean_kept
          | apply pyinstaller_build_kept | apply pyinstaller_post_build_kept ].
Qed.

Lemma nuitka_build_kept : kept (Nuitka.build E).
Proof. unfold Nuitka.build. frame; apply check_call_kept. Qed.

Lemma nuitka_post_build_kept : kept Nuitka.post_build.
Proof.
  intros w. rewrite nuitka_post_build_spec. unfold same_at. cbn [snd fs].
  unfold nuitka_post_build_fs. destruct (exists_ _ _); [|done].
  destruct (copy2 _ _ _) as [e|f'] eqn:Hc; [done|].
  apply (copy2_keeps_source _ _ _ _ Hc).
Qed.

Lemma nuitka_main_kept : kept (Nuitka.main E).
Proof.
  unfold Nuitka.main. frame;
    first [ apply check_call_kept | apply nuitka_clean_kept
          | apply nuitka_build_kept | apply nuitka_post_build_kept ].
Qed.
End TemplateKept.

(** C9. Provided the programs a run spawns (the installer and the backend)
    leave [config.example.toml] alone, so does every stage of either script
    and so does every whole run, however it ends: the entry at the template's
    path is the same after as before. *)
Theorem template_is_read_only (E : environment) (w : world)
    (Hspawn : ∀ cmd f, (spawn E cmd f).2 !! config_template = f !! config_template) :
  let kept (w' : world) := fs w' !! config_template = fs w !! config_template in
  (kept (PyInstaller.ensure_pyinstaller_installed E w).2
   ∧ kept (PyInstaller.clean w).2
   ∧ kept (PyInstaller.build E w).2
   ∧ kept (PyInstaller.normalize_output_directory w).2
   ∧ (∀ dist_path, kept (PyInstaller.post_build dist_path w).2)
   ∧ kept (PyInstaller.main E w).2)
  ∧ (kept (Nuitka.clean w).2
     ∧ kept (Nuitka.build E w).2
     ∧ kept (Nuitka.post_build w).2
     ∧ kept (Nuitka.main E w).2).
Proof.
  cbn zeta. repeat split.
  - by apply pyinstaller_ensure_kept.
  - apply pyinstaller_clean_kept.
  - by apply pyinstaller_build_kept.
  - apply normalize_kept.
  - intros d. apply pyinstaller_post_build_kept.
  - by apply pyinstaller_main_kept.
  - apply nuitka_clean_kept.
  - by apply nuitka_build_kept.
  - apply nuitka_post_build_kept.
  - by apply nuitka_main_kept.
Qed.

(** * The theorems at sample inputs *)

Lemma sample_wf : wf Sample.both_outputs ∧ wf Sample.nuitka_bundle.
Proof. split; apply (bool_decide_unpack _); vm_compute; exact I. Qed.

Lemma normalize_output_directory_moves_witness :
  let w := Sample.start Sample.both_outputs in
  let r := PyInstaller.normalize_output_directory w in
  wf (fs w)
  ∧ exists_ (fs w) PyInstaller.app_bundle_src = true
  ∧ r.1 = Ret (Some PyInstaller.app_target)
  ∧ fs r.2 !! (PyInstaller.app_target ++ ["Contents"; "MacOS"; "captain_cmd"])
    = fs w !! (PyInstaller.app_bundle_src ++ ["Contents"; "MacOS"; "captain_cmd"])
  ∧ fs r.2 !! (PyInstaller.app_bundle_src ++ []) = None.
Proof.
  cbn zeta.
  assert (Hwf : wf (fs (Sample.start Sample.both_outputs))) by apply sample_wf.
  assert (Hb : exists_ (fs (Sample.start Sample.both_outputs))
                 PyInstaller.app_bundle_src = true) by (vm_compute; reflexivity).
  destruct (normalize_output_directory_moves _ Hwf) as [H1 _].
  destruct (H1 Hb) as (Hr & Ht & Hs & _).
  split; [exact Hwf|]. split; [exact Hb|]. split; [exact Hr|].
  split; [apply Ht|apply Hs].
Defined.

Lemma normalize_prefers_bundle_witness :
  let w := Sample.start Sample.both_outputs in
  let r := PyInstaller.normalize_output_directory w in
  r.1 = Ret (Some PyInstaller.app_target)
  ∧ fs r.2 !! (PyInstaller.folder_src ++ ["captain_cmd"])
    = fs w !! (PyInstaller.folder_src ++ ["captain_cmd"]).
Proof.
  cbn zeta.
  assert (Hwf : wf (fs (Sample.start Sample.both_outputs))) by apply sample_wf.
  destruct (normalize_prefers_bundle (Sample.start Sample.both_outputs) Hwf)
    as (Hr & Hf & _); [vm_compute; reflexivity..|].
  split; [exact Hr|apply Hf].
Defined.

Lemma clean_idempotent_witness :
  let w := Sample.start Sample.checkout in
  let w' := Sample.start (<[ ["main.dist"] := File "stale" ]> Sample.checkout) in
  (exists_ (fs w) ["dist"] = false
   ∧ PyInstaller.clean_path ["dist"] w = (Ret tt, w)
   ∧ Nuitka.clean_path ["dist"] w = (Ret tt, w))
  ∧ (isfile (fs w') ["main.dist"] = true
     ∧ exists_ (fs (PyInstaller.clean w').2) ["main.dist"] = false
     ∧ fs (Nuitka.clean w').2 !! ["main.dist"] = Some (File "stale")).
Proof.
  cbn zeta. split.
  - split; [vm_compute; reflexivity|].
    apply (clean_idempotent (Sample.start Sample.checkout)).
    vm_compute; reflexivity.
  - destruct (clean_idempotent
                (Sample.start (<[ ["main.dist"] := File "stale" ]> Sample.checkout)))
      as (_ & _ & _ & _ & Hgone & _ & Hkept & _).
    split; [vm_compute; reflexivity|]. split.
    + apply Hgone. do 3 right. by left.
    + rewrite Hkept; [apply lookup_insert_eq| |vm_compute; reflexivity].
      do 3 right. by left.
Defined.

Lemma backend_failure_is_fatal_witness :
  let w := Sample.start Sample.checkout in
  let Ep := Sample.env 2 "captain_cmd" in
  let En := Sample.env 2 "main.dist" in
  let wp := (pyinstaller_reach_backend Ep w).2 in
  let wn := (nuitka_reach_backend En w).2 in
  (pyinstaller_reach_backend Ep w = (Ret tt, wp)
   ∧ (spawn Ep (PyInstaller.build_cmd Ep) (fs wp)).1 = 2%Z
   ∧ exit_status (PyInstaller.main Ep w).1 = 1%Z
   ∧ stages (PyInstaller.main Ep w).2 = [Ensurer; Cleaner; Invoker])
  ∧ (nuitka_reach_backend En w = (Ret tt, wn)
     ∧ (spawn En (Nuitka.build_cmd En) (fs wn)).1 = 2%Z
     ∧ exit_status (Nuitka.main En w).1 = 1%Z
     ∧ stages (Nuitka.main En w).2 = [Ensurer; Cleaner; Invoker]).
Proof.
  cbn zeta. split.
  - split; [vm_compute; reflexivity|]. split; [vm_compute; reflexivity|].
    destruct (proj1 (backend_failure_is_fatal (Sample.env 2 "captain_cmd")
                       (Sample.start Sample.checkout)
                       (pyinstaller_reach_backend (Sample.env 2 "captain_cmd")
                          (Sample.start Sample.checkout)).2))
      as (Hx & _ & _ & _ & Hs).
    + vm_compute; reflexivity.
    + vm_compute; discriminate.
    + split; [exact Hx|exact Hs].
  - split; [vm_compute; reflexivity|]. split; [vm_compute; reflexivity|].
    destruct (proj2 (backend_failure_is_fatal (Sample.env 2 "main.dist")
                       (Sample.start Sample.checkout)
                       (nuitka_reach_backend (Sample.env 2 "main.dist")
                          (Sample.start Sample.checkout)).2))
      as (Hx & _ & _ & _ & Hs).
    + vm_compute; reflexivity.
    + vm_compute; discriminate.
    + split; [exact Hx|exact Hs].
Defined.

Lemma config_seed_location_witness :
  let w := Sample.start Sample.nuitka_bundle in
  let d := [".build"; "main.app"] in
  let run := Nuitka.main Sample.env_macos (Sample.start Sample.checkout) in
  wf (fs w)
  ∧ stat (fs w) config_template = Some (File "[llm]")
  ∧ fs (PyInstaller.post_build (Some d) w).2
    = <[ d ++ ["Contents"; "MacOS"; "config.toml"] := File "[llm]" ]> (fs w)
  ∧ fs (Nuitka.post_build w).2
    = <[ [".build"; "config.toml"] := File "[llm]" ]> (fs w)
  ∧ fs (Nuitka.post_build w).2 !! (d ++ ["Contents"; "MacOS"; "config.toml"]) = None
  ∧ (In "--macos-create-app-bundle" (Nuitka.build_cmd Sample.env_macos)
     ∧ run.1 = Ret tt
     ∧ fs run.2 !! (d ++ ["Contents"; "MacOS"; "main"]) = Some (File "Mach-O")
     ∧ fs run.2 !! [".build"; "main.dist"] = None
     ∧ fs run.2 !! [".build"; "config.toml"] = Some (File "[llm]")
     ∧ fs run.2 !! (d ++ ["Contents"; "MacOS"; "config.toml"]) = None).
Proof.
  cbn zeta.
  assert (Hwf : wf (fs (Sample.start Sample.nuitka_bundle))) by apply sample_wf.
  assert (Ht : stat (fs (Sample.start Sample.nuitka_bundle)) config_template
               = Some (File "[llm]")) by (vm_compute; reflexivity).
  destruct (config_seed_location _ "[llm]" Hwf Ht) as [Hp [_ Hn]].
  destruct (Hp [".build"; "main.app"]) as [Hbundle _].
  destruct Hn as (_ & Hfs & Hmacos & _); [vm_compute; reflexivity..|].
  split; [exact Hwf|]. split; [exact Ht|]. split; [|split; [|split]].
  - apply Hbundle; vm_compute; reflexivity.
  - exact Hfs.
  - etrans; [exact Hmacos|]. vm_compute; reflexivity.
  - split; [vm_compute; tauto|]. repeat split; vm_compute; reflexivity.
Defined.



Lemma ensurer_installs_on_demand_witness :
  let w := Sample.start Sample.checkout in
  importable Sample.env_no_pip "PyInstaller" = false
  ∧ (PyInstaller.main Sample.env_no_pip w).1
    = Raise (CalledProcessError 1 (PyInstaller.pip_cmd Sample.env_no_pip))
  ∧ calls (PyInstaller.main Sample.env_no_pip w).2
    = [PyInstaller.pip_cmd Sample.env_no_pip]
  ∧ stages (Nuitka.main Sample.env_no_pip w).2 = [Ensurer].
Proof.
  cbn zeta.
  destruct (ensurer_installs_on_demand Sample.env_no_pip
              (Sample.start Sample.checkout)) as [(_ & _ & Hp) (_ & _ & Hn)].
  cbn zeta in Hp, Hn.
  destruct Hp as (Hr & _ & Hc & _); [reflexivity|discriminate|].
  destruct Hn as (_ & _ & _ & Hs); [reflexivity|discriminate|].
  split; [reflexivity|]. split; [by rewrite Hr|]. split; [exact Hc|exact Hs].
Defined.

Lemma sample_spawn_keeps_template rc name cmd f :
  (spawn (Sample.env rc name) cmd f).2 !! config_template = f !! config_template.
Proof.
  cbn. unfold Sample.spawn_demo. case_bool_decide; [done|].
  destruct (rc =? 0)%Z; [|done]. cbn. by rewrite !lookup_insert_ne.
Qed.

Lemma template_is_read_only_witness :
  let w := Sample.start Sample.checkout in
  (∀ cmd f, (spawn (Sample.env 0 "captain_cmd") cmd f).2 !! config_template
            = f !! config_template)
  ∧ fs (PyInstaller.main (Sample.env 0 "captain_cmd") w).2 !! config_template
    = Some (File "[llm]")
  ∧ fs (Nuitka.main (Sample.env 0 "captain_cmd") w).2 !! config_template
    = Some (File "[llm]").
Proof.
  cbn zeta. split; [apply sample_spawn_keeps_template|].
  split;
    apply (template_is_read_only (Sample.env 0 "captain_cmd")
             (Sample.start Sample.checkout)
             (sample_spawn_keeps_template 0 "captain_cmd")).
Defined.

(** Two complete runs, evaluated. *)
Example sample_pyinstaller_run :
  let r := PyInstaller.main (Sample.env 0 "captain_cmd") (Sample.start Sample.checkout) in
  exit_status r.1 = 0%Z
  ∧ fs r.2 !! [".build"; "main.dist"; "config.toml"] = Some (File "[llm]")
  ∧ fs r.2 !! [".build"; "main.dist"; "captain_cmd"] = Some (File "ELF")
  ∧ fs r.2 !! [".build"; "captain_cmd"] = None
  ∧ fs r.2 !! ["build"] = None.
Proof. vm_compute. repeat split. Qed.

Example sample_nuitka_run :
  let r := Nuitka.main (Sample.env 0 "main.dist") (Sample.start Sample.checkout) in
  exit_status r.1 = 0%Z
  ∧ fs r.2 !! [".build"; "main.dist"; "config.toml"] = Some (File "[llm]")
  ∧ fs r.2 !! ["build"; "stale.o"] = None.
Proof. vm_compute. repeat split. Qed.

(** * Further properties of the two scripts *)

(** ** The command lines *)

(** X1. [get_os_specific_flags] asks for an application bundle on macOS and
    for nothing on any other system, known or not; so, the interpreter path
    aside, the Nuitka command line carries [--macos-create-app-bundle]
    exactly when [platform.system()] is ["Darwin"]. *)
Theorem nuitka_bundle_flag_only_on_darwin (E : environment) :
  Nuitka.get_os_specific_flags E
  = (if String.eqb (platform_system E) "Darwin"
     then ["--macos-create-app-bundle"] else [])
  ∧ ("--macos-create-app-bundle" ∈ tail (Nuitka.build_cmd E)
     ↔ platform_system E = "Darwin").
Proof.
  assert (Hflags : Nuitka.get_os_specific_flags E
                   = if String.eqb (platform_system E) "Darwin"
                     then ["--macos-create-app-bundle"] else []).
  { unfold Nuitka.get_os_specific_flags.
    destruct (String.eqb_spec (platform_system E) "Windows") as [->|_]; [done|].
    destruct (String.eqb_spec (platform_system E) "Linux") as [->|_]; [done|].
    by destruct (String.eqb (platform_system E) "Darwin"). }
  split; [exact Hflags|].
  unfold Nuitka.build_cmd. rewrite Hflags.
  match goal with
  | |- context [tail ((?a :: ?l) ++ ?r)] =>
      change (tail ((a :: l) ++ r)) with (l ++ r);
      assert (Hbase : "--macos-create-app-bundle" ∉ l)
        by (apply (bool_decide_unpack _); vm_compute; exact I)
  end.
  rewrite !elem_of_app.
  destruct (String.eqb_spec (platform_system E) "Darwin") as [Hd|Hd].
  - split; [done|]. intros _. right. left. by left.
  - split; [|done]. intros [Hin|[Hin|Hin]]; [done|by apply elem_of_nil in Hin|].
    apply list_elem_of_singleton in Hin. discriminate Hin.
Qed.

(** ** The cleaners *)

(** X2. A regular file at a path to clean: the PyInstaller script removes it
    with [os.remove] and says so; the Nuitka script calls [shutil.rmtree] on
    it, which raises [NotADirectoryError], catches the exception, prints the
    failure with the text of that exception and leaves the file where it
    is.  Neither raises. *)
Theorem clean_path_on_regular_file (p : path) (w : world)
    (Hfile : isfile (fs w) p = true) :
  PyInstaller.clean_path p w
  = (Ret tt, World (delete p (fs w))
               (out w ++ ["    Removed file " +:+ path_str p])
               (calls w) (stages w))
  ∧ Nuitka.clean_path p w
    = (Ret tt, World (fs w)
                 (out w ++ ["    Failed to remove " +:+ path_str p
                            +:+ ": [Errno 20] Not a directory: "
                            +:+ repr (path_str p)])
                 (calls w) (stages w)).
Proof.
  unfold isfile in Hfile. destruct (stat (fs w) p) as [[data|]|] eqn:Hst; [|done..].
  split.
  - unfold PyInstaller.clean_path. rewrite bind_query. unfold isdir. rewrite Hst.
    rewrite bind_query. unfold isfile. rewrite Hst.
    unfold try_except. erewrite bind_lift_ok; [done|]. unfold os_remove. by rewrite Hst.
  - unfold Nuitka.clean_path. rewrite bind_query. unfold exists_. rewrite Hst.
    unfold try_except. erewrite bind_lift_err; [|unfold rmtree; by rewrite Hst].
    reflexivity.
Qed.

Lemma clean_path_on_regular_file_witness :
  let w := Sample.start Sample.both_outputs in
  let p := [".build"; "main.app"] in
  isfile (fs w) p = true
  ∧ fs (PyInstaller.clean_path p w).2 !! p = None
  ∧ out (PyInstaller.clean_path p w).2 = ["    Removed file .build/main.app"]
  ∧ fs (Nuitka.clean_path p w).2 !! p = Some (File "stale")
  ∧ out (Nuitka.clean_path p w).2
    = ["    Failed to remove .build/main.app: [Errno 20] Not a directory: '.build/main.app'"].
Proof.
  cbn zeta.
  assert (Hf : isfile (fs (Sample.start Sample.both_outputs)) [".build"; "main.app"]
               = true) by (vm_compute; reflexivity).
  destruct (clean_path_on_regular_file _ _ Hf) as [-> ->].
  split; [exact Hf|]. repeat split; vm_compute; reflexivity.
Defined.

Section CleanersInvariant.
Implicit Types (f : filesystem) (p k : path).

Lemma prune_wf p f : wf f → wf (prune p f).
Proof.
  intros Hwf k e Hk. rewrite lookup_prune in Hk. case_decide as Hp; [done|].
  destruct (Hwf k e Hk) as [Hne Hd]. split; [done|].
  assert (Hup : dirname k `prefix_of` k).
  { exists [List.last k ""]. unfold dirname. by apply app_removelast_last. }
  destruct (dirname k) as [|x d]; [done|].
  unfold isdir in *. rewrite stat_lookup in * by done.
  rewrite lookup_prune, decide_False; [done|].
  intros Hpre. apply Hp. by etrans.
Qed.

Lemma delete_file_wf p f data : wf f → f !! p = Some (File data) → wf (delete p f).
Proof.
  intros Hwf Hp k e Hk. apply lookup_delete_Some in Hk as [Hpk Hk].
  destruct (Hwf k e Hk) as [Hne Hd]. split; [done|].
  destruct (dirname k) as [|x d] eqn:Hdir; [done|].
  unfold isdir in *. rewrite stat_lookup in * by done.
  rewrite lookup_delete_ne; [done|]. intros Heq. by rewrite <- Heq, Hp in Hd.
Qed.

Lemma pyinstaller_clean_fs_wf p f : wf f → wf (pyinstaller_clean_fs p f).
Proof.
  intros Hwf. unfold pyinstaller_clean_fs.
  destruct (isdir f p); [by apply prune_wf|].
  destruct (isfile f p) eqn:Hf; [|done].
  unfold isfile, stat in Hf. destruct p as [|x p]; [done|].
  destruct (f !! (x :: p)) as [[data|]|] eqn:Hp; [|done..].
  by apply (delete_file_wf _ _ data).
Qed.

Lemma nuitka_clean_fs_wf p f : wf f → wf (nuitka_clean_fs p f).
Proof.
  intros Hwf. unfold nuitka_clean_fs. destruct (isdir f p); [by apply prune_wf|done].
Qed.

Lemma sweep_wf (step : path → filesystem → filesystem) l f :
  (∀ p g, wf g → wf (step p g)) → wf f → wf (sweep step l f).
Proof.
  intros Hstep. revert f. induction l as [|p l IH]; intros f Hwf; [done|].
  change (sweep step (p :: l) f) with (sweep step l (step p f)). by apply IH, Hstep.
Qed.
End CleanersInvariant.

(** X3. Cleaning only removes, and only below the enumerated paths: the
    tree a cleaner leaves is part of the tree it found, and every path that
    is not at or below one of the enumerated paths keeps its entry. *)
Theorem cleaners_touch_only_their_paths (w : world) :
  (fs (PyInstaller.clean w).2 ⊆ fs w
   ∧ ∀ k, (∀ p, p ∈ PyInstaller.clean_paths → ¬ p `prefix_of` k) →
          fs (PyInstaller.clean w).2 !! k = fs w !! k)
  ∧ (fs (Nuitka.clean w).2 ⊆ fs w
     ∧ ∀ k, (∀ p, p ∈ Nuitka.dirs_to_remove → ¬ p `prefix_of` k) →
            fs (Nuitka.clean w).2 !! k = fs w !! k).
Proof.
  destruct (pyinstaller_clean_spec w) as [o1 ->].
  destruct (nuitka_clean_spec w) as [o2 ->]. cbn [snd fs].
  split; split.
  - apply sweep_sub, pyinstaller_clean_fs_sub.
  - intros k Hk. apply sweep_other. intros p g Hp.
    by apply pyinstaller_clean_fs_other, Hk.
  - apply sweep_sub, nuitka_clean_fs_sub.
  - intros k Hk. apply sweep_other. intros p g Hp.
    by apply nuitka_clean_fs_other, Hk.
Qed.

Lemma cleaners_touch_only_their_paths_witness :
  let w := Sample.start Sample.checkout in
  fs (PyInstaller.clean w).2 !! ["main.py"] = fs w !! ["main.py"]
  ∧ fs (Nuitka.clean w).2 !! ["main.py"] = fs w !! ["main.py"].
Proof.
  cbn zeta.
  destruct (cleaners_touch_only_their_paths (Sample.start Sample.checkout))
    as [[_ Hp] [_ Hn]].
  split; [apply Hp|apply Hn]; intros p Hin [t Ht];
    repeat (apply elem_of_cons in Hin as [->|Hin]; [discriminate Ht|]);
    by apply elem_of_nil in Hin.
Defined.

(** X4. Cleaning keeps the tree well-formed: after either cleaner, every
    entry that is left still lives in a directory. *)
Theorem cleaners_keep_wf (w : world) (Hwf : wf (fs w)) :
  wf (fs (PyInstaller.clean w).2) ∧ wf (fs (Nuitka.clean w).2).
Proof.
  destruct (pyinstaller_clean_spec w) as [o1 ->].
  destruct (nuitka_clean_spec w) as [o2 ->]. cbn [snd fs].
  split; apply sweep_wf; try done.
  - apply pyinstaller_clean_fs_wf.
  - apply nuitka_clean_fs_wf.
Qed.

Lemma cleaners_keep_wf_witness :
  wf (fs (Sample.start Sample.both_outputs))
  ∧ wf (fs (PyInstaller.clean (Sample.start Sample.both_outputs)).2)
  ∧ wf (fs (Nuitka.clean (Sample.start Sample.both_outputs)).2).
Proof.
  split; [apply sample_wf|].
  apply (cleaners_keep_wf (Sample.start Sample.both_outputs)). apply sample_wf.
Defined.

(** ** The output root when the backend starts *)

Section FreshRoot.
Implicit Types (f : filesystem) (p k : path).

Lemma insert_dir_wf p f :
  wf f → p ≠ [] → isdir f (dirname p) = true → wf (<[p := Dir]> f).
Proof.
  intros Hwf Hp Hpar k e Hk.
  assert (Hk' : k ≠ [] ∧ isdir f (dirname k) = true).
  { destruct (decide (k = p)) as [->|Hne]; [done|].
    rewrite lookup_insert_ne in Hk by done. by apply (Hwf k e). }
  destruct Hk' as [Hkne Hd]. split; [done|].
  destruct (dirname k) as [|y d] eqn:Hdir; [done|].
  unfold isdir in *. rewrite stat_lookup in * by done.
  destruct (decide (p = y :: d)) as [->|Hne]; [by rewrite lookup_insert_eq|].
  by rewrite lookup_insert_ne.
Qed.

Lemma pyinstaller_sweep_gone f p :
  p ∈ PyInstaller.clean_paths →
  sweep pyinstaller_clean_fs PyInstaller.clean_paths f !! p = None.
Proof.
  intros Hp.
  apply (sweep_settles pyinstaller_clean_fs (fun p f => f !! p = None)); try done.
  - apply pyinstaller_clean_fs_sub.
  - intros q g Hq. by apply pyinstaller_clean_fs_gone.
  - intros q g g' Hg Hsub. by eapply lookup_weaken_None.
  - apply clean_paths_nonempty.
Qed.

Lemma wf_orphan f p q :
  wf f → p ≠ [] → f !! p = None → q ≠ [] → f !! (p ++ q) = None.
Proof.
  intros Hwf Hp Hnone Hq. destruct (f !! (p ++ q)) as [e|] eqn:He; [|done].
  assert (Hd : isdir f p = true).
  { apply (wf_ancestor f p q); [done|by eexists|done]. }
  apply isdir_lookup in Hd; [congruence|done].
Qed.
End FreshRoot.

(** X5. PyInstaller script, backend importable, well-formed tree: the run
    always gets as far as spawning the backend (the two [os.makedirs] calls
    cannot fail after [clean]), and at that moment the output root [.build]
    is a directory that holds the empty work directory
    [.build/pyinstaller-work] and nothing else; the rest of the tree is what
    the cleaner left, and the tree is still well-formed. *)
Theorem pyinstaller_output_root_is_fresh (E : environment) (w : world)
    (Hwf : wf (fs w)) (Himp : importable E "PyInstaller" = true) :
  ∃ w1,
    pyinstaller_reach_backend E w = (Ret tt, w1)
    ∧ fs w1 = <[ PyInstaller.WORK_DIR := Dir ]>
                (<[ PyInstaller.OUTPUT_DIR := Dir ]>
                   (sweep pyinstaller_clean_fs PyInstaller.clean_paths (fs w)))
    ∧ (∀ k, PyInstaller.OUTPUT_DIR `prefix_of` k →
            k ≠ PyInstaller.OUTPUT_DIR → k ≠ PyInstaller.WORK_DIR →
            fs w1 !! k = None)
    ∧ wf (fs w1).
Proof.
  set (f1 := sweep pyinstaller_clean_fs PyInstaller.clean_paths (fs w)).
  assert (Hwf1 : wf f1).
  { apply sweep_wf; [apply pyinstaller_clean_fs_wf|done]. }
  assert (Hroot : f1 !! PyInstaller.OUTPUT_DIR = None).
  { apply pyinstaller_sweep_gone. by left. }
  assert (Hbelow : ∀ q, q ≠ [] → f1 !! (PyInstaller.OUTPUT_DIR ++ q) = None).
  { intros q Hq. by apply wf_orphan. }
  assert (Hm1 : makedirs PyInstaller.OUTPUT_DIR f1
                = inr (<[ PyInstaller.OUTPUT_DIR := Dir ]> f1)).
  { unfold makedirs, PyInstaller.OUTPUT_DIR. cbn [makedirs_from app].
    unfold PyInstaller.OUTPUT_DIR in Hroot. by rewrite Hroot. }
  assert (Hm2 : makedirs PyInstaller.WORK_DIR (<[ PyInstaller.OUTPUT_DIR := Dir ]> f1)
                = inr (<[ PyInstaller.WORK_DIR := Dir ]>
                         (<[ PyInstaller.OUTPUT_DIR := Dir ]> f1))).
  { assert (Hw : f1 !! [".build"; "pyinstaller-work"] = None)
      by (by apply (Hbelow ["pyinstaller-work"])).
    unfold makedirs, PyInstaller.WORK_DIR, PyInstaller.OUTPUT_DIR, join.
    cbn [makedirs_from app]. rewrite lookup_insert_eq.
    rewrite lookup_insert_ne by done. by rewrite Hw. }
  destruct (pyinstaller_clean_spec (entered Ensurer w)) as [o Hc].
  eexists. split; [|split; [|split]].
  - unfold pyinstaller_reach_backend. unfold mbind at 1, M_bind at 1.
    rewrite pyinstaller_ensure_spec, Himp.
    unfold mbind at 1, M_bind at 1. rewrite Hc.
    rewrite bind_enter, bind_print.
    erewrite bind_lift_ok by exact Hm1.
    erewrite bind_lift_ok by exact Hm2.
    reflexivity.
  - reflexivity.
  - intros k [q ->] Hk1 Hk2. cbn [fs].
    rewrite !lookup_insert_ne by done.
    apply Hbelow. intros ->. by rewrite app_nil_r in Hk1.
  - cbn [fs]. apply insert_dir_wf; [|done|].
    + by apply insert_dir_wf.
    + unfold isdir, stat. cbn. by rewrite lookup_insert_eq.
Qed.

Lemma pyinstaller_output_root_is_fresh_witness :
  let E := Sample.env 0 "captain_cmd" in
  let w := Sample.start Sample.both_outputs in
  wf (fs w) ∧ importable E "PyInstaller" = true
  ∧ ∃ w1, pyinstaller_reach_backend E w = (Ret tt, w1)
          ∧ fs w1 !! [".build"; "captain_cmd"] = None
          ∧ fs w1 !! [".build"; "pyinstaller-work"] = Some Dir.
Proof.
  cbn zeta.
  assert (Hwf : wf (fs (Sample.start Sample.both_outputs))) by apply sample_wf.
  destruct (pyinstaller_output_root_is_fresh (Sample.env 0 "captain_cmd")
              (Sample.start Sample.both_outputs) Hwf eq_refl)
    as (w1 & Hr & Hfs & Hnone & _).
  split; [exact Hwf|]. split; [reflexivity|].
  exists w1. split; [exact Hr|]. split.
  - apply Hnone; [by exists ["captain_cmd"]|done|done].
  - rewrite Hfs. apply lookup_insert_eq.
Defined.

(** ** Error paths of [build] and [post_build] *)

(** X6. [build] of the PyInstaller script, called on a workspace that was
    not cleaned: if [.build] is a regular file, or [.build] is a directory
    and [.build/pyinstaller-work] a regular file, [os.makedirs] raises
    [FileExistsError]; the exception is not caught, the backend is not
    spawned and the file system is left as it was. *)
Theorem build_needs_a_usable_output_root (E : environment) (w : world) (data : string) :
  (fs w !! PyInstaller.OUTPUT_DIR = Some (File data) →
   PyInstaller.build E w
   = (Raise (OSError FileExistsError PyInstaller.OUTPUT_DIR),
      printed "[+] Starting PyInstaller build..." (entered Invoker w)))
  ∧ (fs w !! PyInstaller.OUTPUT_DIR = Some Dir →
     fs w !! PyInstaller.WORK_DIR = Some (File data) →
     PyInstaller.build E w
     = (Raise (OSError FileExistsError PyInstaller.WORK_DIR),
        printed "[+] Starting PyInstaller build..." (entered Invoker w))).
Proof.
  split.
  - intros Hroot. unfold PyInstaller.build. rewrite bind_enter, bind_print.
    erewrite bind_lift_err; [reflexivity|]. cbn [fs].
    unfold makedirs, PyInstaller.OUTPUT_DIR in *. cbn [makedirs_from app].
    by rewrite Hroot.
  - intros Hroot Hwork. unfold PyInstaller.build. rewrite bind_enter, bind_print.
    erewrite bind_lift_ok; cycle 1.
    { cbn [fs]. unfold makedirs, PyInstaller.OUTPUT_DIR in *. cbn [makedirs_from app].
      by rewrite Hroot. }
    erewrite bind_lift_err; [reflexivity|]. cbn [fs].
    unfold makedirs, PyInstaller.WORK_DIR, PyInstaller.OUTPUT_DIR, join in *.
    cbn [makedirs_from app] in *. by rewrite Hroot, Hwork.
Qed.

Lemma build_needs_a_usable_output_root_witness :
  let E := Sample.env 0 "captain_cmd" in
  let f : filesystem := <[ [".build"] := File "notes" ]> Sample.checkout in
  let r := PyInstaller.build E (Sample.start f) in
  f !! PyInstaller.OUTPUT_DIR = Some (File "notes")
  ∧ r.1 = Raise (OSError FileExistsError [".build"])
  ∧ calls r.2 = []
  ∧ fs r.2 = f.
Proof.
  cbn zeta.
  assert (Hf : (<[ [".build"] := File "notes" ]> Sample.checkout : filesystem)
                 !! PyInstaller.OUTPUT_DIR = Some (File "notes"))
    by apply lookup_insert_eq.
  destruct (build_needs_a_usable_output_root (Sample.env 0 "captain_cmd")
              (Sample.start (<[ [".build"] := File "notes" ]> Sample.checkout))
              "notes") as [H _].
  rewrite (H Hf). split; [exact Hf|]. repeat split.
Defined.

(** X7. A template path that is a directory passes the [os.path.exists]
    test of both scripts, and [shutil.copy2] then raises
    [IsADirectoryError].  The PyInstaller script does not catch it: a
    [post_build] that found its artifact directory ends with that
    exception.  The Nuitka script catches it: [post_build] prints the
    failure and returns.  Neither changes the file system. *)
Theorem template_that_is_a_directory (w : world) (d : path)
    (Htemplate : stat (fs w) config_template = Some Dir) :
  (wf (fs w) → truthy (Some d) = true → exists_ (fs w) d = true →
   isdir (fs w) (pyinstaller_seed_dir (fs w) d) = true →
   PyInstaller.post_build (Some d) w
   = (Raise (OSError IsADirectoryError config_template),
      printed "[*] Running post-build tasks..." (entered Seeder w)))
  ∧ (let r := Nuitka.post_build w in
     r.1 = Ret tt ∧ fs r.2 = fs w
     ∧ "    Failed to copy config file: [Errno 21] Is a directory: 'config.example.toml'"
         ∈ out r.2).
Proof.
  assert (Hcopy : ∀ dst, copy2 config_template dst (fs w)
                         = inl (OSError IsADirectoryError config_template)).
  { intros dst. unfold copy2. by rewrite Htemplate. }
  split.
  - intros Hwf Ht Hd Htd. unfold PyInstaller.post_build.
    rewrite bind_enter, bind_query. cbn [fs default id]. rewrite Ht, Hd. cbn [negb orb].
    rewrite bind_print, bind_query. cbn [fs]. unfold exists_ at 1.
    rewrite Htemplate. cbn [negb].
    rewrite bind_query. cbn [fs]. fold (pyinstaller_seed_dir (fs w) d).
    erewrite bind_lift_ok; [|by apply makedirs_existing]. cbn [fs out calls stages].
    erewrite bind_lift_err; [reflexivity|]. cbn [fs]. apply Hcopy.
  - cbn zeta. rewrite nuitka_post_build_spec. cbn [fst snd fs out].
    assert (Hex : exists_ (fs w) config_template = true)
      by (unfold exists_; by rewrite Htemplate).
    unfold nuitka_post_build_fs, nuitka_post_build_out.
    rewrite Hex, !Hcopy. split; [done|]. split; [done|].
    rewrite !elem_of_app. right. right. right. left. by left.
Qed.

Lemma template_that_is_a_directory_witness :
  let f : filesystem :=
    <[ [".build"] := Dir ]> (<[ [".build"; "main.dist"] := Dir ]>
    (<[ ["config.example.toml"] := Dir ]> ∅)) in
  let w := Sample.start f in
  stat (fs w) config_template = Some Dir
  ∧ (PyInstaller.post_build (Some [".build"; "main.dist"]) w).1
    = Raise (OSError IsADirectoryError config_template)
  ∧ (Nuitka.post_build w).1 = Ret tt
  ∧ "    Failed to copy config file: [Errno 21] Is a directory: 'config.example.toml'"
      ∈ out (Nuitka.post_build w).2.
Proof.
  cbn zeta.
  set (f := (<[ [".build"] := Dir ]> (<[ [".build"; "main.dist"] := Dir ]>
             (<[ ["config.example.toml"] := Dir ]> ∅)) : filesystem)).
  assert (Ht : stat (fs (Sample.start f)) config_template = Some Dir)
    by (vm_compute; reflexivity).
  destruct (template_that_is_a_directory (Sample.start f) [".build"; "main.dist"] Ht)
    as [Hp Hn].
  split; [exact Ht|]. split.
  - rewrite Hp; [reflexivity| |reflexivity|vm_compute; reflexivity
                |vm_compute; reflexivity].
    apply (bool_decide_unpack _). vm_compute. exact I.
  - destruct Hn as (Hret & _ & Hline). split; [exact Hret|exact Hline].
Defined.



(** ** The normalizer, further *)

Section NormalizerInvariant.
Implicit Types (f : filesystem) (k par : path).

Lemma dirname_prefix k : dirname k `prefix_of` k.
Proof.
  destruct (decide (k = [])) as [->|Hk]; [done|].
  exists [List.last k ""]. unfold dirname. by apply app_removelast_last.
Qed.

Lemma isdir_nonempty f k : k ≠ [] → isdir f k = true ↔ f !! k = Some Dir.
Proof.
  intros Hk. unfold isdir. rewrite stat_lookup by done.
  destruct (f !! k) as [[]|]; split; congruence.
Qed.

Lemma normalized_wf par (x y : string) f :
  let src := par ++ [x] in
  let dst := par ++ [y] in
  x ≠ y → wf f → is_Some (f !! src) →
  wf (relocate src dst (pyinstaller_clean_fs dst f)).
Proof.
  intros src dst Hxy Hwf Hsrc k e Hk.
  assert (Hlook := lookup_normalized par x y f). cbn zeta in Hlook.
  fold src dst in Hlook. rewrite (Hlook k Hxy) in Hk.
  assert (Hsrc_ne : src ≠ []) by (subst src; by destruct par).
  assert (Hdst_ne : dst ≠ []) by (subst dst; by destruct par).
  assert (Hpar : isdir (relocate src dst (pyinstaller_clean_fs dst f)) par = true).
  { destruct (decide (par = [])) as [->|Hne]; [done|].
    apply isdir_nonempty; [done|]. rewrite (Hlook par Hxy).
    rewrite !decide_False by apply prefix_snoc_not.
    apply isdir_nonempty; [done|].
    destruct (wf_parent f src Hwf Hsrc) as [_ Hd]. subst src.
    by rewrite dirname_snoc in Hd. }
  case_decide as Hd.
  - destruct Hd as [q ->]. rewrite drop_app_length in Hk.
    split; [by destruct dst|].
    destruct q as [|z q _] using rev_ind.
    + rewrite app_nil_r. subst dst. by rewrite dirname_snoc.
    + rewrite app_assoc, dirname_snoc.
      apply isdir_nonempty; [by destruct dst|]. rewrite (Hlook _ Hxy).
      rewrite decide_True by by eexists. rewrite drop_app_length.
      destruct (wf_parent f (src ++ q ++ [z]) Hwf) as [_ Hdir]; [by eexists|].
      rewrite app_assoc, dirname_snoc in Hdir.
      apply isdir_nonempty in Hdir; [done|by destruct src].
  - case_decide as Hs; [done|].
    destruct (wf_parent f k Hwf) as [Hne Hdir]; [by eexists|]. split; [done|].
    destruct (decide (dirname k = [])) as [->|Hdk]; [done|].
    apply isdir_nonempty; [done|]. rewrite (Hlook _ Hxy).
    rewrite !decide_False.
    + by apply isdir_nonempty.
    + intros Hp. apply Hs. etrans; [exact Hp|apply dirname_prefix].
    + intros Hp. apply Hd. etrans; [exact Hp|apply dirname_prefix].
Qed.
End NormalizerInvariant.

(** X9. Normalization keeps the tree well-formed: whichever branch
    [normalize_output_directory] takes on a well-formed tree, every entry of
    the tree it leaves still lives in a directory. *)
Theorem normalize_keeps_wf (w : world) (Hwf : wf (fs w)) :
  wf (fs (PyInstaller.normalize_output_directory w).2).
Proof.
  destruct (exists_ (fs w) PyInstaller.app_bundle_src) eqn:Hb.
  - rewrite normalize_bundle by done. cbn [snd fs].
    apply (normalized_wf [".build"] "captain_cmd.app" "main.app"); [done..|].
    change (is_Some (fs w !! PyInstaller.app_bundle_src)).
    unfold exists_ in Hb. rewrite stat_lookup in Hb by done.
    by destruct (fs w !! PyInstaller.app_bundle_src); [eexists|].
  - destruct (exists_ (fs w) PyInstaller.folder_src) eqn:Hf.
    + rewrite normalize_folder by done. cbn [snd fs].
      apply (normalized_wf [".build"] "captain_cmd" "main.dist"); [done..|].
      change (is_Some (fs w !! PyInstaller.folder_src)).
      unfold exists_ in Hf. rewrite stat_lookup in Hf by done.
      by destruct (fs w !! PyInstaller.folder_src); [eexists|].
    + by rewrite normalize_miss.
Qed.

Lemma normalize_keeps_wf_witness :
  wf (fs (Sample.start Sample.both_outputs))
  ∧ wf (fs (PyInstaller.normalize_output_directory
              (Sample.start Sample.both_outputs)).2).
Proof.
  split; [apply sample_wf|].
  apply (normalize_keeps_wf (Sample.start Sample.both_outputs)). apply sample_wf.
Defined.

(** X10. Normalizing twice.  After a bundle has been normalized, a second
    call no longer finds it: when there is no flat folder it returns [None]
    and changes nothing; when the flat folder is there too, the second call
    moves that one to [.build/main.dist], so that both canonical paths are
    then occupied. *)
Theorem normalize_twice (w : world) (Hwf : wf (fs w))
    (Hbundle : exists_ (fs w) PyInstaller.app_bundle_src = true) :
  let r1 := PyInstaller.normalize_output_directory w in
  let r2 := PyInstaller.normalize_output_directory r1.2 in
  (exists_ (fs w) PyInstaller.folder_src = false →
   r2.1 = Ret None ∧ fs r2.2 = fs r1.2)
  ∧ (exists_ (fs w) PyInstaller.folder_src = true →
     r2.1 = Ret (Some PyInstaller.folder_target)
     ∧ exists_ (fs r2.2) PyInstaller.app_target = true
     ∧ exists_ (fs r2.2) PyInstaller.folder_target = true).
Proof.
  cbn zeta. rewrite (normalize_bundle w) by done. cbn [snd].
  set (w1 := World (bundle_normalized (fs w)) (out w) (calls w)
               (stages w ++ [Normalizer])).
  assert (Hwf1 : wf (fs w1)).
  { pose proof (normalize_keeps_wf w Hwf) as H.
    by rewrite normalize_bundle in H by done. }
  assert (Hgone : exists_ (fs w1) PyInstaller.app_bundle_src = false).
  { unfold exists_. rewrite stat_lookup by done. cbn [fs w1].
    by rewrite <- (app_nil_r PyInstaller.app_bundle_src), bundle_normalized_source. }
  assert (Hfolder : exists_ (fs w1) PyInstaller.folder_src
                    = exists_ (fs w) PyInstaller.folder_src).
  { unfold exists_. rewrite !stat_lookup by done. cbn [fs w1].
    rewrite bundle_normalized_other; [done|..]; intros [t Ht]; discriminate. }
  split; intros Hf; rewrite <- Hfolder in Hf.
  - by rewrite normalize_miss.
  - rewrite normalize_folder by done. cbn [fst snd fs].
    split; [done|]. split.
    + unfold exists_. rewrite !stat_lookup by done.
      rewrite folder_normalized_other; [|intros [t Ht]; discriminate..].
      cbn [fs w1]. fold (exists_ (bundle_normalized (fs w)) PyInstaller.app_target).
      pose proof (bundle_normalized_exists (fs w)) as He. unfold exists_ in He, Hbundle.
      rewrite !stat_lookup in He, Hbundle by done. rewrite He. exact Hbundle.
    + by rewrite folder_normalized_exists.
Qed.

Lemma normalize_twice_witness :
  let w := Sample.start Sample.both_outputs in
  let r1 := PyInstaller.normalize_output_directory w in
  let r2 := PyInstaller.normalize_output_directory r1.2 in
  wf (fs w) ∧ exists_ (fs w) PyInstaller.app_bundle_src = true
  ∧ exists_ (fs w) PyInstaller.folder_src = true
  ∧ r2.1 = Ret (Some PyInstaller.folder_target).
Proof.
  cbn zeta.
  assert (Hwf : wf (fs (Sample.start Sample.both_outputs))) by apply sample_wf.
  assert (Hb : exists_ (fs (Sample.start Sample.both_outputs))
                 PyInstaller.app_bundle_src = true) by (vm_compute; reflexivity).
  assert (Hf : exists_ (fs (Sample.start Sample.both_outputs))
                 PyInstaller.folder_src = true) by (vm_compute; reflexivity).
  destruct (normalize_twice _ Hwf Hb) as [_ H2].
  split; [exact Hwf|]. split; [exact Hb|]. split; [exact Hf|].
  apply (H2 Hf).
Defined.

(** ** Whole runs that succeed *)

Section Success.
Implicit Types (f : filesystem) (q : path).

Lemma folder_normalized_isdir f q :
  isdir (folder_normalized f) (PyInstaller.folder_target ++ q)
  = isdir f (PyInstaller.folder_src ++ q).
Proof.
  unfold isdir. rewrite !stat_lookup by done. by rewrite folder_normalized_target.
Qed.

Lemma bundle_normalized_isdir f q :
  isdir (bundle_normalized f) (PyInstaller.app_target ++ q)
  = isdir f (PyInstaller.app_bundle_src ++ q).
Proof.
  unfold isdir. rewrite !stat_lookup by done. by rewrite bundle_normalized_target.
Qed.

Lemma folder_normalized_wf f :
  wf f → exists_ f PyInstaller.folder_src = true → wf (folder_normalized f).
Proof.
  intros Hwf He. apply (normalized_wf [".build"] "captain_cmd" "main.dist"); [done..|].
  change (is_Some (f !! PyInstaller.folder_src)).
  unfold exists_ in He. rewrite stat_lookup in He by done.
  by destruct (f !! PyInstaller.folder_src); [eexists|].
Qed.

Lemma bundle_normalized_wf f :
  wf f → exists_ f PyInstaller.app_bundle_src = true → wf (bundle_normalized f).
Proof.
  intros Hwf He. apply (normalized_wf [".build"] "captain_cmd.app" "main.app"); [done..|].
  change (is_Some (f !! PyInstaller.app_bundle_src)).
  unfold exists_ in He. rewrite stat_lookup in He by done.
  by destruct (f !! PyInstaller.app_bundle_src); [eexists|].
Qed.
End Success.

(** X11. A PyInstaller run that succeeds.  The run reaches the backend,
    the backend ends with status 0 and leaves a well-formed tree with the
    template as a regular file.  If it left the flat folder (and no bundle),
    the run returns and the final tree is the backend's with the folder
    moved to [.build/main.dist] and the template's content at
    [.build/main.dist/config.toml].  If it left a bundle with
    [Contents/MacOS], the final tree is the backend's with the bundle moved
    to [.build/main.app] and the template's content at
    [.build/main.app/Contents/MacOS/config.toml]. *)
Theorem pyinstaller_successful_run (E : environment) (w w1 : world) (data : string) :
  let fb := (spawn E (PyInstaller.build_cmd E) (fs w1)).2 in
  let r := PyInstaller.main E w in
  pyinstaller_reach_backend E w = (Ret tt, w1) →
  (spawn E (PyInstaller.build_cmd E) (fs w1)).1 = 0%Z →
  wf fb →
  stat fb config_template = Some (File data) →
  (exists_ fb PyInstaller.app_bundle_src = false →
   isdir fb PyInstaller.folder_src = true →
   isdir fb (PyInstaller.folder_src ++ ["config.toml"]) = false →
   r.1 = Ret tt
   ∧ fs r.2 = <[ PyInstaller.folder_target ++ ["config.toml"] := File data ]>
                (folder_normalized fb)
   ∧ stages r.2 = stages w ++ [Ensurer; Cleaner; Invoker; Normalizer; Seeder])
  ∧ (isdir fb (PyInstaller.app_bundle_src ++ ["Contents"; "MacOS"]) = true →
     isdir fb (PyInstaller.app_bundle_src ++ ["Contents"; "MacOS"; "config.toml"])
     = false →
     r.1 = Ret tt
     ∧ fs r.2 = <[ PyInstaller.app_target ++ ["Contents"; "MacOS"; "config.toml"]
                   := File data ]> (bundle_normalized fb)
     ∧ stages r.2 = stages w ++ [Ensurer; Cleaner; Invoker; Normalizer; Seeder]).
Proof.
  cbn zeta. intros Hreach Hrc Hwf Ht.
  rewrite (pyinstaller_main_from E w w1 Hreach), pyinstaller_finish_ok by done.
  pose proof (pyinstaller_reach_stages E w w1 Hreach) as Hst.
  set (fb := (spawn E (PyInstaller.build_cmd E) (fs w1)).2) in *.
  set (wb := spawned E (PyInstaller.build_cmd E) w1).
  assert (Hfb : fs wb = fb) by done.
  assert (Hstb : stages wb = stages w ++ [Ensurer; Cleaner; Invoker]) by done.
  clearbody wb. split.
  - intros Hb Hf Hc.
    assert (He : exists_ fb PyInstaller.folder_src = true) by by apply isdir_exists.
    assert (∃ o, pyinstaller_normalize_and_seed wb
                 = (Ret tt,
                    World (<[ PyInstaller.folder_target ++ ["config.toml"]
                              := File data ]> (folder_normalized fb)) o (calls wb)
                      ((stages wb ++ [Normalizer]) ++ [Seeder]))) as [o ->].
    { eexists. unfold pyinstaller_normalize_and_seed.
      unfold mbind at 1, M_bind at 1. rewrite normalize_folder by (by rewrite Hfb).
      change (truthy (Some PyInstaller.folder_target)) with true. cbv iota.
      rewrite bind_print, Hfb.
      rewrite (pyinstaller_post_build_seeds _ data); cbn [fs out calls stages].
      - reflexivity.
      - by apply folder_normalized_wf.
      - reflexivity.
      - by rewrite folder_normalized_exists.
      - by rewrite folder_normalized_template.
      - change (isdir (folder_normalized fb) (PyInstaller.folder_target ++ []) = true).
        by rewrite folder_normalized_isdir, app_nil_r.
      - change (isdir (folder_normalized fb)
                  (PyInstaller.folder_target ++ ["config.toml"]) = false).
        by rewrite folder_normalized_isdir. }
    cbn [fst snd fs stages]. rewrite Hstb, <- !app_assoc. done.
  - intros Hm Hc.
    assert (He : exists_ fb PyInstaller.app_bundle_src = true).
    { apply (bundle_dir_exists fb PyInstaller.app_bundle_src); done. }
    assert (∃ o, pyinstaller_normalize_and_seed wb
                 = (Ret tt,
                    World (<[ PyInstaller.app_target
                                ++ ["Contents"; "MacOS"; "config.toml"]
                              := File data ]> (bundle_normalized fb)) o (calls wb)
                      ((stages wb ++ [Normalizer]) ++ [Seeder]))) as [o ->].
    { eexists. unfold pyinstaller_normalize_and_seed.
      unfold mbind at 1, M_bind at 1. rewrite normalize_bundle by (by rewrite Hfb).
      change (truthy (Some PyInstaller.app_target)) with true. cbv iota.
      rewrite bind_print, Hfb.
      assert (Hseed : pyinstaller_seed_dir (bundle_normalized fb) PyInstaller.app_target
                      = PyInstaller.app_target ++ ["Contents"; "MacOS"]).
      { unfold pyinstaller_seed_dir.
        change (endswith (path_str PyInstaller.app_target) ".app") with true. cbv iota.
        unfold join. rewrite (isdir_exists (bundle_normalized fb)); [done|].
        by rewrite bundle_normalized_isdir. }
      rewrite (pyinstaller_post_build_seeds _ data); cbn [fs out calls stages];
        rewrite ?Hseed.
      - unfold join. rewrite <- app_assoc. reflexivity.
      - by apply bundle_normalized_wf.
      - reflexivity.
      - by rewrite bundle_normalized_exists.
      - by rewrite bundle_normalized_template.
      - by rewrite bundle_normalized_isdir.
      - unfold join. rewrite <- app_assoc. by rewrite bundle_normalized_isdir. }
    cbn [fst snd fs stages]. rewrite Hstb, <- !app_assoc. done.
Qed.

Lemma pyinstaller_successful_run_witness :
  let E := Sample.env 0 "captain_cmd" in
  let w := Sample.start Sample.checkout in
  let r := PyInstaller.main E w in
  r.1 = Ret tt
  ∧ fs r.2 !! [".build"; "main.dist"; "config.toml"] = Some (File "[llm]").
Proof.
  cbn zeta.
  destruct (pyinstaller_successful_run (Sample.env 0 "captain_cmd")
              (Sample.start Sample.checkout)
              (pyinstaller_reach_backend (Sample.env 0 "captain_cmd")
                 (Sample.start Sample.checkout)).2 "[llm]") as [Hflat _].
  { vm_compute; reflexivity. }
  { vm_compute; reflexivity. }
  { apply (bool_decide_unpack _). vm_compute. exact I. }
  { vm_compute; reflexivity. }
  destruct Hflat as (Hr & Hfs & _).
  { vm_compute; reflexivity. }
  { vm_compute; reflexivity. }
  { vm_compute; reflexivity. }
  split; [exact Hr|]. rewrite Hfs. apply lookup_insert_eq.
Defined.

(** X12. A Nuitka run that succeeds.  The run reaches the backend, the
    backend ends with status 0 and leaves [.build/main.dist] as a directory
    and the template as a regular file: the run returns, and the final tree
    is the backend's with the template's content at
    [.build/main.dist/config.toml]. *)
Theorem nuitka_successful_run (E : environment) (w w1 : world) (data : string) :
  let fb := (spawn E (Nuitka.build_cmd E) (fs w1)).2 in
  let r := Nuitka.main E w in
  nuitka_reach_backend E w = (Ret tt, w1) →
  (spawn E (Nuitka.build_cmd E) (fs w1)).1 = 0%Z →
  stat fb config_template = Some (File data) →
  isdir fb Nuitka.main_dist = true →
  isdir fb (Nuitka.main_dist ++ ["config.toml"]) = false →
  r.1 = Ret tt
  ∧ fs r.2 = <[ Nuitka.main_dist ++ ["config.toml"] := File data ]> fb
  ∧ stages r.2 = stages w ++ [Ensurer; Cleaner; Invoker; Seeder].
Proof.
  cbn zeta. intros Hreach Hrc Ht Hm Hc.
  rewrite (nuitka_main_from E w w1 Hreach), nuitka_finish_ok by done.
  rewrite nuitka_post_build_spec. cbn [fst snd fs stages printed spawned].
  rewrite (nuitka_reach_stages E w w1 Hreach), <- app_assoc.
  split; [done|]. split; [|done].
  unfold nuitka_post_build_fs, nuitka_seed_dir, exists_ at 1.
  rewrite Ht, (isdir_exists _ _ Hm). by rewrite (copy2_file _ _ _ data).
Qed.

Lemma nuitka_successful_run_witness :
  let E := Sample.env 0 "main.dist" in
  let w := Sample.start Sample.checkout in
  let r := Nuitka.main E w in
  r.1 = Ret tt
  ∧ fs r.2 !! [".build"; "main.dist"; "config.toml"] = Some (File "[llm]").
Proof.
  cbn zeta.
  destruct (nuitka_successful_run (Sample.env 0 "main.dist")
              (Sample.start Sample.checkout)
              (nuitka_reach_backend (Sample.env 0 "main.dist")
                 (Sample.start Sample.checkout)).2 "[llm]") as (Hr & Hfs & _).
  { vm_compute; reflexivity. }
  { vm_compute; reflexivity. }
  { vm_compute; reflexivity. }
  { vm_compute; reflexivity. }
  { vm_compute; reflexivity. }
  split; [exact Hr|]. rewrite Hfs. apply lookup_insert_eq.
Defined.

(** ** Exit statuses *)

Section ExitsOne.
Lemma exits_one_ret {A} (a : A) : exits_one (mret a).
Proof. by intros w c. Qed.

Lemma exits_one_print s : exits_one (print s).
Proof. by intros w c. Qed.

Lemma exits_one_enter s : exits_one (enter s).
Proof. by intros w c. Qed.

Lemma exits_one_query {A} (q : filesystem → A) : exits_one (query q).
Proof. by intros w c. Qed.

Lemma exits_one_lift op : exits_one (lift op).
Proof. intros w c. unfold lift. by destruct (op (fs w)). Qed.

Lemma exits_one_import E m : exits_one (import E m).
Proof. intros w c. unfold import. by destruct (importable E m). Qed.

Lemma exits_one_check_call E cmd : exits_one (check_call E cmd).
Proof. intros w c. rewrite check_call_spec. cbn. by destruct (_ =? _)%Z. Qed.

Lemma exits_one_sys_exit {A} : exits_one (@sys_exit A 1).
Proof. intros w c [= <-]. done. Qed.

Lemma exits_one_bind {A B} (m : M A) (k : A → M B) :
  exits_one m → (∀ a, exits_one (k a)) → exits_one (m ≫= k).
Proof.
  intros Hm Hk w c. unfold mbind, M_bind. specialize (Hm w).
  destruct (m w) as [[a|e|c'] w']; cbn in *; [apply Hk|done|].
  intros [= <-]. by apply Hm.
Qed.

Lemma exits_one_try_except {A} (m : M A) caught handler :
  exits_one m → (∀ e, exits_one (handler e)) →
  exits_one (try_except m caught handler).
Proof.
  intros Hm Hh w c. unfold try_except. specialize (Hm w).
  destruct (m w) as [[a|e|c'] w']; cbn in *; [done| |].
  - destruct (caught e); [apply Hh|done].
  - intros [= <-]. by apply Hm.
Qed.

Lemma exits_one_for_each {A} (l : list A) body :
  (∀ x, exits_one (body x)) → exits_one (for_each l body).
Proof.
  intros Hbody. induction l as [|x l IH]; [apply exits_one_ret|].
  apply exits_one_bind; [apply Hbody|done].
Qed.
End ExitsOne.

Ltac exits_one_step :=
  lazymatch goal with
  | |- exits_one (mbind _ _) => apply exits_one_bind; [|intros ?]
  | |- exits_one (try_except _ _ _) => apply exits_one_try_except; [|intros ?]
  | |- exits_one (for_each _ _) => apply exits_one_for_each; intros ?
  | |- exits_one (mret _) => apply exits_one_ret
  | |- exits_one (print _) => apply exits_one_print
  | |- exits_one (enter _) => apply exits_one_enter
  | |- exits_one (query _) => apply exits_one_query
  | |- exits_one (lift _) => apply exits_one_lift
  | |- exits_one (import _ _) => apply exits_one_import
  | |- exits_one (check_call _ _) => apply exits_one_check_call
  | |- exits_one (sys_exit 1) => apply exits_one_sys_exit
  | |- exits_one (match ?b with _ => _ end) => destruct b
  end.

(** X13. The exit status of a run of either script is 0 or 1, whatever the
    environment and the workspace: 0 exactly when the run returns, 1 when it
    ends with an uncaught exception or with [sys.exit], which both scripts
    only ever call with 1. *)
Theorem exit_status_is_0_or_1 (E : environment) (w : world) :
  let p := exit_status (PyInstaller.main E w).1 in
  let n := exit_status (Nuitka.main E w).1 in
  ((p = 0%Z ∨ p = 1%Z) ∧ (p = 0%Z ↔ is_Ret (PyInstaller.main E w).1 = true))
  ∧ ((n = 0%Z ∨ n = 1%Z) ∧ (n = 0%Z ↔ is_Ret (Nuitka.main E w).1 = true)).
Proof.
  assert (Hp : exits_one (PyInstaller.main E)).
  { unfold PyInstaller.main, PyInstaller.ensure_pyinstaller_installed,
      PyInstaller.clean, PyInstaller.clean_path, PyInstaller.build,
      PyInstaller.normalize_output_directory, PyInstaller._replace_path,
      PyInstaller.post_build.
    repeat exits_one_step. }
  assert (Hn : exits_one (Nuitka.main E)).
  { unfold Nuitka.main, Nuitka.clean, Nuitka.clean_path, Nuitka.build,
      Nuitka.post_build.
    repeat exits_one_step. }
  cbn zeta. specialize (Hp w). specialize (Hn w). split.
  - destruct (PyInstaller.main E w).1 as [a|e|c]; cbn.
    + split; [by left|done].
    + split; [by right|done].
    + rewrite (Hp c eq_refl). split; [by right|done].
  - destruct (Nuitka.main E w).1 as [a|e|c]; cbn.
    + split; [by left|done].
    + split; [by right|done].
    + rewrite (Hn c eq_refl). split; [by right|done].
Qed.

(** ** What a run spawns *)

#[global] Instance same_calls_refl : Reflexive same_calls.
Proof. by intros w. Qed.
#[global] Instance same_calls_trans : Transitive same_calls.
Proof. unfold same_calls. intros w1 w2 w3 H1 H2. congruence. Qed.

Ltac calls_frame_step :=
  first
    [ frame_step
    | lazymatch goal with
      | |- respects same_calls (lift _) =>
          apply respects_lift; [apply _|by intros ? ? ?]
      | |- respects same_calls (enter _) => by intros ?
      end ].
Ltac calls_frame := repeat calls_frame_step.

Section Spawns.
Variable E : environment.

Lemma spawns_quiet {A} (m : M A) : respects same_calls m → spawns m [].
Proof.
  intros Hm w. specialize (Hm w). unfold same_calls in Hm. rewrite Hm.
  split; [exists 0|intros _]; by rewrite app_nil_r.
Qed.

Lemma spawns_bind {A B} (m : M A) (k : A → M B) L1 L2 :
  spawns m L1 → (∀ a, spawns (k a) L2) → spawns (m ≫= k) (L1 ++ L2).
Proof.
  intros Hm Hk w. unfold mbind, M_bind.
  destruct (Hm w) as [[n Hn] Hfull]. destruct (m w) as [[a|e|c] w'] eqn:Hmw; cbn in *.
  - destruct (Hk a w') as [[n2 Hn2] Hfull2].
    specialize (Hfull eq_refl). split.
    + exists (length L1 + n2). rewrite Hn2, Hfull.
      by rewrite take_app_add, app_assoc.
    + intros Hr. by rewrite (Hfull2 Hr), Hfull, app_assoc.
  - split; [|done]. exists (n `min` length L1). rewrite Hn. f_equal.
    by rewrite take_app_le, take_min_length by lia.
  - split; [|done]. exists (n `min` length L1). rewrite Hn. f_equal.
    by rewrite take_app_le, take_min_length by lia.
Qed.

Lemma spawns_after_quiet {A B} (m : M A) (k : A → M B) L :
  respects same_calls m → (∀ a, spawns (k a) L) → spawns (m ≫= k) L.
Proof.
  intros Hm Hk. apply (spawns_bind m k [] L); [|done]. by apply spawns_quiet.
Qed.

Lemma spawns_then_quiet {A B} (m : M A) (k : A → M B) L :
  spawns m L → (∀ a, respects same_calls (k a)) → spawns (m ≫= k) L.
Proof.
  intros Hm Hk. rewrite <- (app_nil_r L).
  apply (spawns_bind m k L []); [done|]. intros a. by apply spawns_quiet.
Qed.

(** A guarded backend call spawns its command line once, however it ends. *)
Lemma spawns_guarded_call cmd (handler : exn → M unit) :
  (∀ e, respects same_calls (handler e)) →
  spawns (try_except (check_call E cmd) is_CalledProcessError handler) [cmd].
Proof.
  intros Hh w. unfold try_except. rewrite check_call_spec.
  destruct (_ =? _)%Z; cbn.
  - split; [by exists 1|done].
  - rewrite (Hh _ (spawned E cmd w)). cbn. split; [by exists 1|done].
Qed.

Lemma pyinstaller_ensure_spawns :
  spawns (PyInstaller.ensure_pyinstaller_installed E)
    (if importable E "PyInstaller" then [] else [PyInstaller.pip_cmd E]).
Proof.
  intros w. rewrite pyinstaller_ensure_spec.
  destruct (importable E "PyInstaller"); cbn.
  - split; [exists 0|intros _]; by rewrite app_nil_r.
  - rewrite check_call_spec. cbn. split; [by exists 1|done].
Qed.

Lemma pyinstaller_clean_quiet : respects same_calls PyInstaller.clean.
Proof. intros w. by destruct (pyinstaller_clean_spec w) as [o ->]. Qed.

Lemma nuitka_clean_quiet : respects same_calls Nuitka.clean.
Proof. intros w. by destruct (nuitka_clean_spec w) as [o ->]. Qed.

Lemma normalize_quiet : respects same_calls PyInstaller.normalize_output_directory.
Proof.
  unfold PyInstaller.normalize_output_directory, PyInstaller._replace_path.
  calls_frame.
Qed.

Lemma pyinstaller_post_build_quiet d : respects same_calls (PyInstaller.post_build d).
Proof. unfold PyInstaller.post_build. calls_frame. Qed.

Lemma nuitka_post_build_quiet : respects same_calls Nuitka.post_build.
Proof. intros w. by rewrite nuitka_post_build_spec. Qed.

Lemma pyinstaller_build_spawns :
  spawns (PyInstaller.build E) [PyInstaller.build_cmd E].
Proof.
  unfold PyInstaller.build.
  repeat (apply spawns_after_quiet; [solve [calls_frame]|intros ?]).
  apply spawns_then_quiet.
  - apply spawns_guarded_call. intros e. calls_frame.
  - intros _. calls_frame. apply normalize_quiet.
Qed.

Lemma nuitka_build_spawns : spawns (Nuitka.build E) [Nuitka.build_cmd E].
Proof.
  unfold Nuitka.build.
  repeat (apply spawns_after_quiet; [solve [calls_frame]|intros ?]).
  intros w. unfold try_except, mbind, M_bind. rewrite check_call_spec.
  destruct (_ =? _)%Z; cbn; (split; [by exists 1|done]).
Qed.
End Spawns.

(** X14. What a run spawns.  In every run of either script the programs
    spawned are, in this order and each at most once: the installer, only
    when the backend could not be imported, and then the backend; a run may
    end before either, but it never spawns anything else, never the
    installer after the backend, and never the backend a second time.  A run
    that returns has spawned all of them. *)
Theorem run_spawns_installer_then_backend (E : environment) :
  spawns (PyInstaller.main E)
    ((if importable E "PyInstaller" then [] else [PyInstaller.pip_cmd E])
     ++ [PyInstaller.build_cmd E])
  ∧ spawns (Nuitka.main E)
      ((if importable E "nuitka" then [] else [Nuitka.pip_cmd E])
       ++ [Nuitka.build_cmd E]).
Proof.
  split.
  - unfold PyInstaller.main. apply spawns_bind; [apply pyinstaller_ensure_spawns|].
    intros _. apply spawns_after_quiet; [apply pyinstaller_clean_quiet|]. intros _.
    apply spawns_then_quiet; [apply pyinstaller_build_spawns|].
    intros d. apply pyinstaller_post_build_quiet.
  - unfold Nuitka.main. apply spawns_after_quiet; [calls_frame|]. intros _.
    apply spawns_bind.
    + intros w. unfold try_except, import.
      destruct (importable E "nuitka"); cbn.
      * split; [exists 0|intros _]; by rewrite app_nil_r.
      * rewrite bind_print, check_call_spec. cbn.
        destruct (_ =? _)%Z; cbn; (split; [by exists 1|done]).
    + intros _. apply spawns_after_quiet; [apply nuitka_clean_quiet|]. intros _.
      apply spawns_then_quiet; [apply nuitka_build_spawns|].
      intros _. apply nuitka_post_build_quiet.
Qed.

(** ** Seeding only adds *)

#[global] Instance grows_refl : Reflexive grows.
Proof. by intros w k. Qed.
#[global] Instance grows_trans : Transitive grows.
Proof. intros w1 w2 w3 H1 H2 k Hk. by apply H2, H1. Qed.

Section Grows.
Lemma makedirs_grows p : respects grows (lift (makedirs p)).
Proof.
  apply respects_lift; [apply _|]. intros w f Hm k Hk. cbn [fs].
  rewrite (makedirs_kept _ _ _ _ Hm); [done|by left].
Qed.

Lemma copy2_grows src dst : respects grows (lift (copy2 src dst)).
Proof.
  apply respects_lift; [apply _|]. intros w f Hc k Hk. cbn [fs].
  unfold copy2 in Hc.
  set (d := if isdir (fs w) dst then join dst (basename src) else dst) in Hc.
  destruct (stat (fs w) src) as [[data|]|]; [|done..].
  destruct (bool_decide _); [done|]. destruct (negb _); [done|].
  destruct (isdir (fs w) d); [done|]. injection Hc as <-.
  rewrite lookup_insert. by case_decide.
Qed.
End Grows.

Ltac grows_step :=
  first
    [ frame_step
    | lazymatch goal with
      | |- respects grows (lift (makedirs _)) => apply makedirs_grows
      | |- respects grows (lift (copy2 _ _)) => apply copy2_grows
      | |- respects grows (enter _) => by intros ? ?
      | |- respects grows (print _) => by intros ? ?
      end ].

(** X15. Seeding never removes anything: whatever [post_build] of either
    script is given and however it ends, every path that had an entry before
    has one after. *)
Theorem post_build_only_adds (w : world) (k : path)
    (Hk : is_Some (fs w !! k)) :
  (∀ dist_path, is_Some (fs (PyInstaller.post_build dist_path w).2 !! k))
  ∧ is_Some (fs (Nuitka.post_build w).2 !! k).
Proof.
  split.
  - intros d.
    assert (H : respects grows (PyInstaller.post_build d)).
    { unfold PyInstaller.post_build. repeat grows_step. }
    by apply (H w).
  - assert (H : respects grows Nuitka.post_build).
    { unfold Nuitka.post_build. repeat grows_step. }
    by apply (H w).
Qed.

Lemma post_build_only_adds_witness :
  let w := Sample.start Sample.nuitka_bundle in
  let k := [".build"; "main.app"; "Contents"; "MacOS"; "main"] in
  is_Some (fs w !! k)
  ∧ is_Some (fs (PyInstaller.post_build (Some [".build"; "main.app"]) w).2 !! k)
  ∧ is_Some (fs (Nuitka.post_build w).2 !! k).
Proof.
  cbn zeta.
  assert (Hk : is_Some (fs (Sample.start Sample.nuitka_bundle)
                          !! [".build"; "main.app"; "Contents"; "MacOS"; "main"])).
  { exists (File "Mach-O"). vm_compute. reflexivity. }
  destruct (post_build_only_adds _ _ Hk) as [Hp Hn].
  split; [exact Hk|]. split; [apply Hp|exact Hn].
Defined.

(** ** The Nuitka run up to the backend *)

(** X16. Nuitka script, backend importable: nothing before the backend can
    stop the run, whatever the workspace holds.  The backend is spawned on
    the tree the cleaner left, and no program has been spawned before it; in
    particular a regular file at one of the enumerated paths, which the
    cleaner fails to remove, is still there when the backend starts. *)
Theorem nuitka_always_reaches_backend (E : environment) (w : world)
    (Himp : importable E "nuitka" = true) :
  ∃ w1,
    nuitka_reach_backend E w = (Ret tt, w1)
    ∧ fs w1 = sweep nuitka_clean_fs Nuitka.dirs_to_remove (fs w)
    ∧ calls w1 = calls w
    ∧ (∀ p, p ∈ Nuitka.dirs_to_remove → isfile (fs w) p = true →
            fs w1 !! p = fs w !! p).
Proof.
  destruct (nuitka_clean_spec (entered Ensurer w)) as [o Hc].
  eexists. split; [|split; [|split]].
  - unfold nuitka_reach_backend. rewrite bind_enter.
    rewrite (nuitka_ensure_spec E), Himp.
    unfold mbind at 1, M_bind at 1.
    change (World (fs w) (out w) (calls w) (stages w ++ [Ensurer]))
      with (entered Ensurer w).
    rewrite Hc. rewrite bind_enter, !bind_print. reflexivity.
  - reflexivity.
  - reflexivity.
  - intros p Hp Hfile. cbn [fs].
    assert (Hone : ∀ q, q ∈ Nuitka.dirs_to_remove → length q = 1).
    { intros q Hq. unfold Nuitka.dirs_to_remove in Hq.
      repeat (apply elem_of_cons in Hq as [->|Hq]; [done|]).
      by apply elem_of_nil in Hq. }
    assert (Hfix : ∀ l f, (∀ q, q ∈ l → q `prefix_of` p → q = p) →
                          isfile f p = true →
                          sweep nuitka_clean_fs l f !! p = f !! p).
    { clear. intros l. induction l as [|q l IH]; intros f Hsame Hf; [done|].
      change (sweep nuitka_clean_fs (q :: l) f)
        with (sweep nuitka_clean_fs l (nuitka_clean_fs q f)).
      assert (Hstep : nuitka_clean_fs q f !! p = f !! p).
      { unfold nuitka_clean_fs. destruct (isdir f q) eqn:Hd; [|done].
        rewrite lookup_prune. case_decide as Hpre; [|done].
        rewrite (Hsame q) in Hd by (done || by left).
        unfold isfile, isdir in *. by destruct (stat f p) as [[]|]. }
      rewrite IH.
      - exact Hstep.
      - intros r Hr. apply Hsame. by right.
      - unfold isfile, stat in *. destruct p; [done|]. by rewrite Hstep. }
    apply Hfix; [|done]. intros q Hq Hpre.
    apply prefix_length_eq; [done|]. by rewrite (Hone p), (Hone q).
Qed.

Lemma nuitka_always_reaches_backend_witness :
  let E := Sample.env 0 "main.dist" in
  let f : filesystem := <[ ["build"] := File "notes" ]> Sample.checkout_no_template in
  importable E "nuitka" = true
  ∧ ∃ w1, nuitka_reach_backend E (Sample.start f) = (Ret tt, w1)
          ∧ fs w1 !! ["build"] = Some (File "notes").
Proof.
  cbn zeta. split; [reflexivity|].
  destruct (nuitka_always_reaches_backend (Sample.env 0 "main.dist")
              (Sample.start (<[ ["build"] := File "notes" ]>
                               Sample.checkout_no_template)) eq_refl)
    as (w1 & Hr & _ & _ & Hkeep).
  exists w1. split; [exact Hr|].
  rewrite (Hkeep ["build"]); [apply lookup_insert_eq| |vm_compute; reflexivity].
  right. by left.
Defined.

(** ** Seeding writes one file *)

Section SeedFrame.
Implicit Types (f : filesystem) (p k : path).

Lemma makedirs_from_present pre rest f f' :
  wf f → pre ++ rest ≠ [] → is_Some (f !! (pre ++ rest)) →
  makedirs_from pre rest f = inr f' → f' = f.
Proof.
  intros Hwf. revert pre. induction rest as [|x rest IH]; intros pre Hne Hs Hm.
  { cbn in Hm. congruence. }
  cbn [makedirs_from] in Hm.
  assert (Hx : is_Some (f !! (pre ++ [x]))).
  { destruct rest as [|y rest']; [done|]. exists Dir.
    apply isdir_lookup; [by destruct pre|].
    apply (wf_ancestor f (pre ++ [x]) (y :: rest')); [done| |done].
    by rewrite <- app_assoc. }
  destruct Hx as [e Hx]. rewrite Hx in Hm. destruct e as [data|]; [done|].
  apply (IH (pre ++ [x])); [|by rewrite <- app_assoc|done].
  by destruct pre.
Qed.

Lemma makedirs_present p f f' :
  wf f → exists_ f p = true → makedirs p f = inr f' → f' = f.
Proof.
  intros Hwf He Hm. destruct p as [|x p]; [cbn in Hm; congruence|].
  apply (makedirs_from_present [] (x :: p) f f'); [done..| |done].
  change (is_Some (f !! (x :: p))).
  unfold exists_, stat in He. by destruct (f !! (x :: p)); [eexists|].
Qed.

Lemma copy2_other src dst f f' k :
  copy2 src dst f = inr f' →
  k ≠ dst → k ≠ join dst (basename src) → f' !! k = f !! k.
Proof.
  unfold copy2. intros Hc Hk1 Hk2.
  destruct (stat f src) as [[data|]|]; [|done..].
  destruct (bool_decide _); [done|]. destruct (negb _); [done|].
  destruct (isdir f dst).
  - destruct (isdir f (join dst (basename src))); [done|].
    injection Hc as <-. by rewrite lookup_insert_ne.
  - destruct (isdir f dst); [done|].
    injection Hc as <-. by rewrite lookup_insert_ne.
Qed.
End SeedFrame.

(** X17. Seeding writes one file.  [post_build] of either script changes
    the file system at no path but the configuration's: [config.toml] in the
    directory it seeds or, when that name is taken by a directory,
    [config.example.toml] inside it.  (For the PyInstaller script on a
    well-formed tree, where its [os.makedirs] finds the directory there.) *)
Theorem post_build_writes_only_the_configuration (w : world) (k : path) :
  (∀ dist_path,
     let target_dir := pyinstaller_seed_dir (fs w) (default [] dist_path) in
     wf (fs w) →
     k ≠ join target_dir ["config.toml"] →
     k ≠ join target_dir ["config.toml"; "config.example.toml"] →
     fs (PyInstaller.post_build dist_path w).2 !! k = fs w !! k)
  ∧ (let target_dir := nuitka_seed_dir (fs w) in
     k ≠ join target_dir ["config.toml"] →
     k ≠ join target_dir ["config.toml"; "config.example.toml"] →
     fs (Nuitka.post_build w).2 !! k = fs w !! k).
Proof.
  split.
  - intros d td Hwf Hk1 Hk2. unfold PyInstaller.post_build.
    rewrite bind_enter, bind_query. cbn [fs].
    destruct (truthy d) eqn:Ht; [|done]. cbn [negb orb].
    destruct (exists_ (fs w) (default [] d)) eqn:Hd; [|done]. cbn [negb].
    rewrite bind_print, bind_query. cbn [fs].
    destruct (exists_ (fs w) config_template) eqn:Hc; [|done]. cbn [negb].
    rewrite bind_query. cbn [fs].
    fold (pyinstaller_seed_dir (fs w) (default [] d)). fold td.
    assert (Htd : exists_ (fs w) td = true).
    { subst td. unfold pyinstaller_seed_dir.
      destruct (endswith _ _); [|done].
      by destruct (exists_ (fs w) (join (default [] d) ["Contents"; "MacOS"])) eqn:Hm. }
    destruct (makedirs td (fs w)) as [e|f1] eqn:Hm.
    { by erewrite bind_lift_err. }
    erewrite bind_lift_ok by done.
    assert (f1 = fs w) as -> by by apply (makedirs_present td).
    destruct (copy2 config_template (join td ["config.toml"]) (fs w)) as [e|f2] eqn:Hcp.
    { by erewrite bind_lift_err. }
    erewrite bind_lift_ok by done.
    unfold mbind, M_bind, print. cbn [fs snd].
    apply (copy2_other _ _ _ _ _ Hcp); [done|].
    unfold join in *. by rewrite <- app_assoc.
  - intros td Hk1 Hk2. rewrite nuitka_post_build_spec. cbn [snd fs].
    unfold nuitka_post_build_fs. destruct (exists_ _ _); [|done].
    fold td. destruct (copy2 _ _ _) as [e|f'] eqn:Hcp; [done|].
    apply (copy2_other _ _ _ _ _ Hcp); [done|].
    unfold join in *. by rewrite <- app_assoc.
Qed.

Lemma post_build_writes_only_the_configuration_witness :
  let w := Sample.start Sample.nuitka_bundle in
  let k := [".build"; "main.app"; "Contents"; "MacOS"; "main"] in
  wf (fs w)
  ∧ fs (PyInstaller.post_build (Some [".build"; "main.app"]) w).2 !! k = fs w !! k
  ∧ fs (Nuitka.post_build w).2 !! k = fs w !! k.
Proof.
  cbn zeta.
  assert (Hwf : wf (fs (Sample.start Sample.nuitka_bundle))) by apply sample_wf.
  destruct (post_build_writes_only_the_configuration
              (Sample.start Sample.nuitka_bundle)
              [".build"; "main.app"; "Contents"; "MacOS"; "main"]) as [Hp Hn].
  split; [exact Hwf|]. split.
  - apply (Hp (Some [".build"; "main.app"]) Hwf); vm_compute; discriminate.
  - apply Hn; vm_compute; discriminate.
Defined.

(** ** Further sample evaluations *)

Lemma nuitka_bundle_flag_only_on_darwin_witness :
  let mac := Environment "python3" "Darwin" (fun _ => true) (fun _ f => (0%Z, f)) in
  platform_system mac = "Darwin"
  ∧ "--macos-create-app-bundle" ∈ tail (Nuitka.build_cmd mac)
  ∧ Nuitka.get_os_specific_flags (Sample.env 0 "main.dist") = [].
Proof.
  cbn zeta. split; [reflexivity|]. split.
  - apply (nuitka_bundle_flag_only_on_darwin
             (Environment "python3" "Darwin" (fun _ => true) (fun _ f => (0%Z, f)))).
    reflexivity.
  - apply (nuitka_bundle_flag_only_on_darwin (Sample.env 0 "main.dist")).
Defined.

Lemma exit_status_is_0_or_1_witness :
  let E := Sample.env 7 "captain_cmd" in
  let w := Sample.start Sample.checkout in
  is_Ret (PyInstaller.main E w).1 = false
  ∧ exit_status (PyInstaller.main E w).1 = 1%Z.
Proof.
  cbn zeta. split; [vm_compute; reflexivity|].
  destruct (exit_status_is_0_or_1 (Sample.env 7 "captain_cmd")
              (Sample.start Sample.checkout)) as [[[H0|H1] Hiff] _].
  - apply Hiff in H0. vm_compute in H0. discriminate H0.
  - exact H1.
Defined.
